(** * Room-availability extractor ([src/doc_parser.py]): a shallow embedding

    The development follows [BookingHTMLParser.extract_room_data]:

    - [Str]     Python's [str] as data: a sequence of Unicode code points;
    - [PyStr]   the [str] methods the extractor calls ([strip], [lower],
                [split], [replace], [in], [startswith], [join]);
    - [Soup]    the parsed tree and the queries made on it ([select],
                [select_one], [find_all], [find], [find_next], [get_text],
                [get]), over elements addressed by their document position;
    - [Dict]    the insertion-ordered mapping a record is built in;
    - [Parser]  the extraction pass itself, in an error monad whose
                exceptions are the ones Python raises in that function.

    The function is modelled on a loaded tree: reading the file
    ([load_html]) and tabulating the records ([get_availability_table],
    [main]) are input and output around it. A character is its code point,
    so that the text of a page (no-break spaces, letters outside ASCII) is
    in the model, and [strip] removes what Python removes. The tree is
    the one Beautiful Soup builds with [html.parser]: a [Tag] is always
    true in a condition, so [if elem] only tests that an element was
    found, and the text of a tag leaves out the strings of the classes
    kept for the contents of [script], [style] and [template] tags. *)

From Stdlib Require Import List ZArith NArith Bool Arith Lia.
From Stdlib.Strings Require Byte.
Import ListNotations.

#[local] Set Warnings "-register-all".

(* ===================================================================== *)
(** ** Strings *)
(* ===================================================================== *)

(** A character is a Unicode code point, [ord(c)]. *)
Definition char : Type := N.

(** A [str]: a sequence of code points. *)
Inductive string : Type :=
| EmptyString
| String (c : char) (s : string).

Module Str.

(** [s + t] *)
Fixpoint append (s t : string) : string :=
  match s with
  | EmptyString => t
  | String c s' => String c (append s' t)
  end.

(** [len(s)] *)
Fixpoint length (s : string) : nat :=
  match s with
  | EmptyString => 0
  | String _ s' => S (length s')
  end.

(** [s == t] *)
Fixpoint eqb (s t : string) : bool :=
  match s, t with
  | EmptyString, EmptyString => true
  | String c s', String d t' => N.eqb c d && eqb s' t'
  | _, _ => false
  end.

(** [s] starts with [p]. *)
Fixpoint prefix (p s : string) {struct s} : bool :=
  match p with
  | EmptyString => true
  | String a p' =>
      match s with
      | EmptyString => false
      | String b s' => N.eqb a b && prefix p' s'
      end
  end.

(** [sep.join(pieces)] *)
Fixpoint concat (sep : string) (pieces : list string) : string :=
  match pieces with
  | [] => EmptyString
  | [x] => x
  | x :: xs => append x (append sep (concat sep xs))
  end.

(** Reading and printing of literals. A literal holds ASCII characters;
    any other character is written by its code point. *)
Definition char_of_byte (b : Byte.byte) : option char :=
  let n := Byte.to_N b in if (n <? 128)%N then Some n else None.

Definition byte_of_char (c : char) : option Byte.byte :=
  if (c <? 128)%N then Byte.of_N c else None.

Fixpoint string_of_bytes (l : list Byte.byte) : option string :=
  match l with
  | [] => Some EmptyString
  | b :: l' =>
      match char_of_byte b, string_of_bytes l' with
      | Some c, Some s => Some (String c s)
      | _, _ => None
      end
  end.

Fixpoint bytes_of_string (s : string) : option (list Byte.byte) :=
  match s with
  | EmptyString => Some []
  | String c s' =>
      match byte_of_char c, bytes_of_string s' with
      | Some b, Some l => Some (b :: l)
      | _, _ => None
      end
  end.

Definition char_of_bytes (l : list Byte.byte) : option N :=
  match l with
  | [b] => char_of_byte b
  | _ => None
  end.

Definition bytes_of_char (c : N) : option (list Byte.byte) :=
  match byte_of_char c with
  | Some b => Some [b]
  | None => None
  end.

End Str.

Declare Scope string_scope.
Delimit Scope string_scope with string.
Bind Scope string_scope with string.
Declare Scope char_scope.
Delimit Scope char_scope with char.
Bind Scope char_scope with char.
String Notation string Str.string_of_bytes Str.bytes_of_string : string_scope.
String Notation N Str.char_of_bytes Str.bytes_of_char : char_scope.
Infix "++" := Str.append (right associativity, at level 60) : string_scope.

Local Open Scope string_scope.
Local Open Scope list_scope.

(* ===================================================================== *)
(** ** Python string methods *)
(* ===================================================================== *)

Module PyStr.

(** [c.isspace()], the characters that [strip] removes: TAB, LF, VT, FF,
    CR, FS, GS, RS, US, SPACE, NEL (U+0085), the no-break space (U+00A0),
    U+1680, U+2000 to U+200A, U+2028, U+2029, U+202F, U+205F and
    U+3000. *)
Definition is_space (c : char) : bool :=
  (((0x09 <=? c) && (c <=? 0x0D)) || ((0x1C <=? c) && (c <=? 0x20))
   || (c =? 0x85) || (c =? 0xA0) || (c =? 0x1680)
   || ((0x2000 <=? c) && (c <=? 0x200A))
   || (c =? 0x2028) || (c =? 0x2029) || (c =? 0x202F) || (c =? 0x205F)
   || (c =? 0x3000))%N.

(** [s.lstrip()] *)
Fixpoint lstrip (s : string) : string :=
  match s with
  | EmptyString => EmptyString
  | String c s' => if is_space c then lstrip s' else s
  end.

(** [s.rstrip()] *)
Fixpoint rstrip (s : string) : string :=
  match s with
  | EmptyString => EmptyString
  | String c s' =>
      match rstrip s' with
      | EmptyString => if is_space c then EmptyString else String c EmptyString
      | r => String c r
      end
  end.

(** [s.strip()] *)
Definition strip (s : string) : string := lstrip (rstrip s).

(** [c.lower()], up to the characters outside ASCII. The characters
    whose lower case holds an ASCII character are the letters A to Z, the
    Kelvin sign U+212A (to [k]) and the dotted capital I U+0130 (to [i]
    and the combining dot U+0307); they are mapped as Python maps them.
    Any other character is kept, where Python may put other characters
    from outside ASCII in its place: the two tests that the extractor
    makes on a lower-cased text, equality with [#008009] in line 93 and
    [breakfast in] it in line 113, read ASCII characters only and come
    out the same. *)
Definition lower_char (c : char) : string :=
  if ((0x41 <=? c) && (c <=? 0x5A))%N then String (c + 32)%N EmptyString
  else if (c =? 0x212A)%N then "k"
  else if (c =? 0x130)%N then String 0x69%N (String 0x307%N EmptyString)
  else String c EmptyString.

(** [s.lower()] *)
Fixpoint lower (s : string) : string :=
  match s with
  | EmptyString => EmptyString
  | String c s' => lower_char c ++ lower s'
  end.

(** [s.startswith(p)] *)
Definition startswith (s p : string) : bool := Str.prefix p s.

(** [sub in s] *)
Fixpoint contains (sub s : string) : bool :=
  Str.prefix sub s ||
  match s with
  | EmptyString => false
  | String _ s' => contains sub s'
  end.

(** [s.split(sep)] for a one-character separator: the pieces between
    consecutive separators, always at least one piece. *)
Fixpoint split (sep : char) (s : string) : list string :=
  match s with
  | EmptyString => [EmptyString]
  | String c s' =>
      if N.eqb c sep then EmptyString :: split sep s'
      else match split sep s' with
           | [] => [String c EmptyString]
           | piece :: pieces => String c piece :: pieces
           end
  end.

(** [s.replace(c, '')] for a one-character [c]. *)
Fixpoint remove_char (c : char) (s : string) : string :=
  match s with
  | EmptyString => EmptyString
  | String a s' =>
      if N.eqb a c then remove_char c s' else String a (remove_char c s')
  end.

(** [sep.join(pieces)] *)
Definition join (sep : string) (pieces : list string) : string :=
  Str.concat sep pieces.

(** Membership of a character, the logical counterpart of [c in s]. *)
Fixpoint occurs (c : char) (s : string) : Prop :=
  match s with
  | EmptyString => False
  | String a s' => a = c \/ occurs c s'
  end.

End PyStr.

(* ===================================================================== *)
(** ** The parsed tree and its queries *)
(* ===================================================================== *)

Module Soup.

(** The classes of strings in a tree. The parser gives ordinary text the
    class [NavigableString] itself ([Plain] here) and puts the text below
    a [style], [script], [template], [rt] or [rp] tag in a class of its
    own. *)
Inductive string_class : Type :=
| Plain
| CData
| Comment
| Declaration
| Doctype
| ProcessingInstruction
| Stylesheet
| Script
| TemplateString
| RubyTextString
| RubyParenthesisString.

(** A parsed document. A [Tag] has a lower-cased name, its [class]
    attribute as the list of class names (the parser splits it), its other
    attributes as name/value pairs, and its children. A [NavigableString]
    is a string of some class. *)
Inductive node : Type :=
| NavigableString (cls : string_class) (text : string)
| Tag (name : string) (classes : list string)
      (attrs : list (string * string)) (contents : list node).

(** [tag.descendants]: every node below [n], in document order. *)
Fixpoint descendants (n : node) : list node :=
  match n with
  | NavigableString _ _ => []
  | Tag _ _ _ cs => flat_map (fun c => c :: descendants c) cs
  end.

(** The whole document in parse order, the root first: the chain that
    [next_element] walks. *)
Definition document_order (doc : node) : list node := doc :: descendants doc.

(** An element is addressed by its position in [document_order]; two
    equal subtrees at different places are different elements. *)
Definition element : Type := nat * node.

Definition position (e : element) : nat := fst e.
Definition node_of (e : element) : node := snd e.

Fixpoint enumerate (start : nat) (l : list node) : list element :=
  match l with
  | [] => []
  | n :: l' => (start, n) :: enumerate (S start) l'
  end.

Definition root (doc : node) : element := (0, doc).

(** [e.descendants], with positions. *)
Definition descendants_of (e : element) : list element :=
  enumerate (S (position e)) (descendants (node_of e)).

(** [e.next_elements]: everything after [e] in the document, starting
    with [e]'s own first child. *)
Definition next_elements (doc : node) (e : element) : list element :=
  skipn (S (position e)) (enumerate 0 (document_order doc)).

Definition is_named (name : string) (n : node) : bool :=
  match n with
  | NavigableString _ _ => false
  | Tag name' _ _ _ => Str.eqb name' name
  end.

Definition has_class (c : string) (n : node) : bool :=
  match n with
  | NavigableString _ _ => false
  | Tag _ classes _ _ => existsb (Str.eqb c) classes
  end.

(** [tag.get(key)], [None] when the attribute is missing. *)
Fixpoint lookup_attr (key : string) (attrs : list (string * string))
  : option string :=
  match attrs with
  | [] => None
  | (k, v) :: attrs' => if Str.eqb k key then Some v else lookup_attr key attrs'
  end.

Definition get (n : node) (key : string) : option string :=
  match n with
  | NavigableString _ _ => None
  | Tag _ _ attrs _ => lookup_attr key attrs
  end.

(** [tag.get(key, default)] *)
Definition get_default (n : node) (key default : string) : string :=
  match get n key with
  | Some v => v
  | None => default
  end.

(** A compound CSS selector of the two shapes the extractor uses:
    [.a.b] and [name.a]. *)
Record selector : Type := Selector {
  sel_name : option string;
  sel_classes : list string
}.

Definition matches (sel : selector) (n : node) : bool :=
  match n with
  | NavigableString _ _ => false
  | Tag _ _ _ _ =>
      match sel_name sel with
      | Some name => is_named name n
      | None => true
      end
      && forallb (fun c => has_class c n) (sel_classes sel)
  end.

(** [e.select(sel)]: the matching descendants, in document order. *)
Definition select (e : element) (sel : selector) : list element :=
  filter (fun d => matches sel (node_of d)) (descendants_of e).

(** [e.select_one(sel)]: the first of them, or [None]. *)
Definition select_one (e : element) (sel : selector) : option element :=
  find (fun d => matches sel (node_of d)) (descendants_of e).

(** [e.find_all(name)] *)
Definition find_all (e : element) (name : string) : list element :=
  filter (fun d => is_named name (node_of d)) (descendants_of e).

(** [tag.string]: the single string child, of any class, looking through
    single tag children; [None] when a tag has no child or several. *)
Fixpoint string_of (n : node) : option string :=
  match n with
  | NavigableString _ s => Some s
  | Tag _ _ _ [c] => string_of c
  | Tag _ _ _ _ => None
  end.

(** [e.find(name, string=s)]: the first descendant tag called [name]
    whose [.string] is [s]. *)
Definition find_string (e : element) (name s : string) : option element :=
  find (fun d => is_named name (node_of d) &&
                 match string_of (node_of d) with
                 | Some s' => Str.eqb s' s
                 | None => false
                 end)
       (descendants_of e).

(** [e.find_next(name, ...)]: the first following element called [name]
    that satisfies [p]. *)
Definition find_next (doc : node) (e : element) (name : string)
  (p : node -> bool) : option element :=
  find (fun d => is_named name (node_of d) && p (node_of d)) (next_elements doc e).

Definition string_class_eqb (a b : string_class) : bool :=
  match a, b with
  | Plain, Plain | CData, CData | Comment, Comment
  | Declaration, Declaration | Doctype, Doctype
  | ProcessingInstruction, ProcessingInstruction
  | Stylesheet, Stylesheet | Script, Script
  | TemplateString, TemplateString
  | RubyTextString, RubyTextString
  | RubyParenthesisString, RubyParenthesisString => true
  | _, _ => false
  end.

(** [tag.interesting_string_types]: the classes of strings that count as
    the text of a tag. An ordinary tag takes ordinary text and CDATA; a
    tag that contains a class of strings of its own takes that class. *)
Definition interesting_string_types (n : node) : list string_class :=
  match n with
  | NavigableString _ _ => []
  | Tag name _ _ _ =>
      if Str.eqb name "rt" then [RubyTextString]
      else if Str.eqb name "rp" then [RubyParenthesisString]
      else if Str.eqb name "style" then [Stylesheet]
      else if Str.eqb name "script" then [Script]
      else if Str.eqb name "template" then [TemplateString]
      else [Plain; CData]
  end.

(** The strings below a tag that are of one of the given classes. *)
Definition all_strings (types : list string_class) (n : node) : list string :=
  flat_map (fun d => match d with
                     | NavigableString cls s =>
                         if existsb (string_class_eqb cls) types then [s] else []
                     | Tag _ _ _ _ => []
                     end)
           (descendants n).

(** [tag.stripped_strings]: the text below a tag, each string stripped,
    the empty ones dropped. *)
Definition stripped_strings (n : node) : list string :=
  filter (fun s => negb (Str.eqb s ""))
         (map PyStr.strip (all_strings (interesting_string_types n) n)).

(** [e.get_text(separator, strip=True)] *)
Definition get_text (separator : string) (e : element) : string :=
  PyStr.join separator (stripped_strings (node_of e)).

End Soup.

(* ===================================================================== *)
(** ** Insertion-ordered dictionaries *)
(* ===================================================================== *)

Module Dict.

(** The two kinds of values a record holds. *)
Inductive value : Type :=
| VStr (s : string)
| VInt (z : Z).

(** A [dict] with string keys. Python keeps the keys in insertion order,
    and assigning to an existing key keeps its place. *)
Definition dict : Type := list (string * value).

Definition empty : dict := [].

(** [d[key] = v] *)
Fixpoint setitem (key : string) (v : value) (d : dict) : dict :=
  match d with
  | [] => [(key, v)]
  | (k, v') :: d' =>
      if Str.eqb k key then (k, v) :: d' else (k, v') :: setitem key v d'
  end.

(** [d.get(key)] *)
Fixpoint lookup (key : string) (d : dict) : option value :=
  match d with
  | [] => None
  | (k, v) :: d' => if Str.eqb k key then Some v else lookup key d'
  end.

(** [list(d.keys())] *)
Definition keys (d : dict) : list string := map fst d.

Definition value_eqb (a b : value) : bool :=
  match a, b with
  | VStr s, VStr t => Str.eqb s t
  | VInt x, VInt y => Z.eqb x y
  | _, _ => false
  end.

End Dict.

(* ===================================================================== *)
(** ** Exceptions *)
(* ===================================================================== *)

Module Exc.

(** The exceptions the statements of [extract_room_data] can raise. *)
Inductive exn : Type :=
| UnboundLocalError
| IndexError
| KeyError
| AttributeError.

Inductive result (A : Type) : Type :=
| Return (a : A)
| Raise (e : exn).

Arguments Return {A} a.
Arguments Raise {A} e.

Definition bind {A B : Type} (c : result A) (k : A -> result B) : result B :=
  match c with
  | Return a => k a
  | Raise e => Raise e
  end.

(** [l[-1]] *)
Definition last_item {A : Type} (l : list A) : result A :=
  match rev l with
  | [] => Raise IndexError
  | a :: _ => Return a
  end.

(** [l[0]] *)
Definition first_item {A : Type} (l : list A) : result A :=
  match l with
  | [] => Raise IndexError
  | a :: _ => Return a
  end.

(** [d[key]] *)
Definition getitem (d : Dict.dict) (key : string) : result Dict.value :=
  match Dict.lookup key d with
  | Some v => Return v
  | None => Raise KeyError
  end.

(** Using a value where a [str] method is called on it. *)
Definition as_str (v : Dict.value) : result string :=
  match v with
  | Dict.VStr s => Return s
  | Dict.VInt _ => Raise AttributeError
  end.

End Exc.

Declare Scope exc_scope.
Delimit Scope exc_scope with exc.
Notation "x <- c ;; k" := (Exc.bind c (fun x => k))
  (at level 61, c at next level, right associativity) : exc_scope.
Notation "' pat <- c ;; k" := (Exc.bind c (fun x => match x with pat => k end))
  (at level 61, pat pattern, c at next level, right associativity) : exc_scope.

(* ===================================================================== *)
(** ** [BookingHTMLParser.extract_room_data] *)
(* ===================================================================== *)

Module Parser.

Import Soup Dict Exc.
Local Open Scope exc_scope.

(** The CSS selectors of the source, in order of appearance. *)
Definition ROW : selector :=
  Selector None ["js-rt-block-row"; "e2e-hprt-table-row"].
Definition ROOMTYPE_ICON_LINK : selector := Selector None ["hprt-roomtype-icon-link"].
Definition ROOMTYPE_LINK : selector := Selector None ["hprt-roomtype-link"].
Definition PRICE : selector := Selector None ["prco-valign-middle-helper"].
Definition CONDITIONS : selector := Selector None ["hprt-conditions-ntf"].
Definition OCCUPANCY : selector := Selector None ["hprt-occupancy-occupancy-info"].
Definition NOS_SELECT : selector := Selector (Some "select") ["hprt-nos-select"].
Definition FOOD_COFFEE : selector :=
  Selector None ["bk-icon"; "-streamline-food_coffee"].

(** [elem.get_text(sep, strip=True) if elem else 'N/A'] *)
Definition text_or_na (sep : string) (elem : option element) : string :=
  match elem with
  | Some e => get_text sep e
  | None => "N/A"
  end.

(** Lines 41-47: the room type, with the carried [current_room_type].
    The local variable is unbound ([None]) until a row assigns it. *)
Definition room_type_block (row : element) (current_room_type : option string)
  (room_data : dict) : result (dict * option string) :=
  let room_type_elem := select_one row ROOMTYPE_ICON_LINK in
  let room_type := text_or_na "" room_type_elem in
  if negb (Str.eqb room_type "N/A") then
    let current_room_type := Some room_type in
    Return (setitem "room_type" (VStr room_type) room_data, current_room_type)
  else
    match current_room_type with
    | Some room_type =>
        Return (setitem "room_type" (VStr room_type) room_data, current_room_type)
    | None => Raise UnboundLocalError
    end.

(** Lines 50-59: description, price and cancellation policy. *)
Definition scalar_block (row : element) (room_data : dict) : dict :=
  let description_elem := select_one row ROOMTYPE_LINK in
  let room_data :=
    setitem "description" (VStr (text_or_na " " description_elem)) room_data in
  let price_elem := select_one row PRICE in
  let room_data := setitem "price" (VStr (text_or_na "" price_elem)) room_data in
  let policy_elem := select_one row CONDITIONS in
  setitem "cancellation_policy" (VStr (text_or_na "" policy_elem)) room_data.

(** Lines 62-64: the maximum occupancy. *)
Definition occupancy_block (row : element) (room_data : dict) : result dict :=
  let occupancy_elem := select_one row OCCUPANCY in
  let room_data :=
    setitem "max_occupancy" (VStr (text_or_na "" occupancy_elem)) room_data in
  v <- getitem room_data "max_occupancy" ;;
  s <- as_str v ;;
  piece <- last_item (PyStr.split ":" s) ;;
  Return (setitem "max_occupancy" (VStr (PyStr.strip piece)) room_data).

(** Line 70: [len(select_elem.find_all('option')) - 1]. *)
Definition count_units (options : list element) : Z :=
  Z.of_nat (length options) - 1.

(** Line 79: [option_text.split('$')[-1].split(')')[0].replace(',', '')]. *)
Definition option_price (option_text : string) : result string :=
  after <- last_item (PyStr.split "$" option_text) ;;
  before <- first_item (PyStr.split ")" after) ;;
  Return (PyStr.remove_char "," before).

(** Lines 67-85: available units and the price per unit. In line 75
    [last_option] is a tag, hence true, and the test is on the units
    alone. The inner [if] of line 78 has no [else]. *)
Definition units_block (row : element) (room_data : dict) : result dict :=
  match select_one row NOS_SELECT with
  | Some select_elem =>
      let available_units := count_units (find_all select_elem "option") in
      let room_data := setitem "available_units" (VInt available_units) room_data in
      last_option <- last_item (find_all select_elem "option") ;;
      if (0 <? available_units)%Z then
        let option_text := get_text "" last_option in
        if PyStr.contains "$" option_text then
          price <- option_price option_text ;;
          Return (setitem "price_per_unit" (VStr price) room_data)
        else Return room_data
      else Return (setitem "price_per_unit" (VStr "N/A") room_data)
  | None =>
      let room_data := setitem "available_units" (VInt 0) room_data in
      Return (setitem "price_per_unit" (VStr "N/A") room_data)
  end.

(** Line 88: [id=lambda x: x and x.startswith('policyModal_')]. *)
Definition is_policy_modal_id (n : node) : bool :=
  match get n "id" with
  | Some x => negb (Str.eqb x "") && PyStr.startswith x "policyModal_"
  | None => false
  end.

(** Line 88: the policy modal of a row. *)
Definition policy_modal_of (doc : node) (row : element) : option element :=
  find_next doc row "template" is_policy_modal_id.

(** Lines 91-100: the breakfast icon of the row. *)
Definition breakfast_icon_block (row : element) (room_data : dict) : dict :=
  match select_one row FOOD_COFFEE with
  | Some breakfast_icon =>
      let fill_color := PyStr.lower (get_default (node_of breakfast_icon) "fill" "") in
      if Str.eqb fill_color "#008009" then
        setitem "breakfast_included" (VStr "Yes") room_data
      else setitem "breakfast_included" (VStr "No") room_data
  | None => setitem "breakfast_included" (VStr "No") room_data
  end.

(** Lines 103-120: the meals of the policy modal. *)
Definition meals_block (doc : node) (policy_modal : option element)
  (room_data : dict) : result dict :=
  match policy_modal with
  | Some modal =>
      match find_string modal "h3" "Meals" with
      | Some meals_section =>
          match find_next doc meals_section "div" (has_class "bui-list__description") with
          | Some meals_info =>
              let meals_text := get_text "" meals_info in
              let room_data := setitem "meals_included" (VStr meals_text) room_data in
              if PyStr.contains "breakfast" (PyStr.lower meals_text) then
                b <- getitem room_data "breakfast_included" ;;
                if value_eqb b (VStr "No") then
                  Return (setitem "breakfast_included" (VStr "Yes") room_data)
                else Return room_data
              else Return room_data
          | None => Return (setitem "meals_included" (VStr "Not specified") room_data)
          end
      | None => Return (setitem "meals_included" (VStr "No meals included") room_data)
      end
  | None => Return (setitem "meals_included" (VStr "Not specified") room_data)
  end.

(** Lines 38-122: the body of the loop for one row. It returns the record
    it appends and the carried room type. *)
Definition extract_row (doc : node) (row : element)
  (current_room_type : option string) : result (dict * option string) :=
  let room_data := empty in
  '(room_data, current_room_type) <-
    room_type_block row current_room_type room_data ;;
  let room_data := scalar_block row room_data in
  room_data <- occupancy_block row room_data ;;
  room_data <- units_block row room_data ;;
  let policy_modal := policy_modal_of doc row in
  let room_data := breakfast_icon_block row room_data in
  room_data <- meals_block doc policy_modal room_data ;;
  Return (room_data, current_room_type).

(** Lines 37-124: the loop. *)
Fixpoint for_rows (doc : node) (room_rows : list element)
  (current_room_type : option string) (rooms : list dict)
  : result (list dict) :=
  match room_rows with
  | [] => Return rooms
  | row :: room_rows' =>
      '(room_data, current_room_type) <- extract_row doc row current_room_type ;;
      for_rows doc room_rows' current_room_type (rooms ++ [room_data])
  end.

(** Line 35: the row segments of the document. *)
Definition room_rows (soup : node) : list element := select (root soup) ROW.

(** [extract_room_data] on a loaded tree. *)
Definition extract_room_data (soup : node) : result (list dict) :=
  for_rows soup (room_rows soup) None [].

End Parser.

(* ===================================================================== *)
(** ** Sample documents *)
(* ===================================================================== *)

Module Samples.

Import Soup.

Definition text_tag (name cls text : string) : node :=
  Tag name [cls] [] [NavigableString Plain text].

Definition row_tag (contents : list node) : node :=
  Tag "tr" ["js-rt-block-row"; "e2e-hprt-table-row"] [] contents.

Definition label_tag (text : string) : node :=
  text_tag "span" "hprt-roomtype-icon-link" text.

Definition occupancy_tag (text : string) : node :=
  text_tag "div" "hprt-occupancy-occupancy-info" text.

Definition select_tag (options : list string) : node :=
  Tag "select" ["hprt-nos-select"] []
      (map (fun text => Tag "option" [] [] [NavigableString Plain text]) options).

Definition icon_tag (fill : string) : node :=
  Tag "svg" ["bk-icon"; "-streamline-food_coffee"] [("fill", fill)] [].

(** The Meals heading of a policy modal; its text lies below a
    [template] tag. *)
Definition meals_heading : node :=
  Tag "h3" [] [] [NavigableString TemplateString "Meals"].

(** A policy modal with a Meals heading. *)
Definition modal_tag (id : string) : node :=
  Tag "template" [] [("id", id)] [meals_heading].

(** A description block, outside any [template]. *)
Definition description_tag (text : string) : node :=
  text_tag "div" "bui-list__description" text.

(** A policy modal whose description block lies in the [template]
    itself, with the class of strings the parser gives it there. *)
Definition modal_with_description (id text : string) : node :=
  Tag "template" [] [("id", id)]
      [meals_heading;
       Tag "div" ["bui-list__description"] []
           [NavigableString TemplateString text]].

Definition document (contents : list node) : node :=
  Tag "[document]" [] [] contents.

(** A labelled row with every sub-element; its icon is not green. *)
Definition full_row_node : node :=
  row_tag [label_tag "Deluxe Suite";
           text_tag "a" "hprt-roomtype-link" " Deluxe Suite  with view ";
           text_tag "span" "prco-valign-middle-helper" "$6,584";
           text_tag "div" "hprt-conditions-ntf" "Free cancellation";
           occupancy_tag "Occupancy: 2 adults";
           select_tag ["0"; "1 ($100)"; "2 ($6,584)"];
           icon_tag "#6B6B6B"].

(** That row, followed by its policy modal and the description block of
    the meals. *)
Definition doc_full : node :=
  document
    [full_row_node;
     modal_tag "policyModal_1";
     description_tag "Breakfast included for 2"].

Definition full_row : element := (1, full_row_node).


Definition full_record : Dict.dict :=
  [("room_type", Dict.VStr "Deluxe Suite");
   ("description", Dict.VStr "Deluxe Suite  with view");
   ("price", Dict.VStr "$6,584");
   ("cancellation_policy", Dict.VStr "Free cancellation");
   ("max_occupancy", Dict.VStr "2 adults");
   ("available_units", Dict.VInt 2);
   ("price_per_unit", Dict.VStr "6584");
   ("breakfast_included", Dict.VStr "Yes");
   ("meals_included", Dict.VStr "Breakfast included for 2")].

(** A labelled row followed by a row without a label. *)
Definition doc_grouped : node :=
  document
    [row_tag [label_tag "Deluxe Suite"];
     row_tag [occupancy_tag "2 adults"]].

Definition grouped_first_row : element :=
  (1, row_tag [label_tag "Deluxe Suite"]).

Definition grouped_second_row : element :=
  (4, row_tag [occupancy_tag "2 adults"]).

Definition grouped_rooms : list Dict.dict :=
  [[("room_type", Dict.VStr "Deluxe Suite");
    ("description", Dict.VStr "N/A");
    ("price", Dict.VStr "N/A");
    ("cancellation_policy", Dict.VStr "N/A");
    ("max_occupancy", Dict.VStr "N/A");
    ("available_units", Dict.VInt 0);
    ("price_per_unit", Dict.VStr "N/A");
    ("breakfast_included", Dict.VStr "No");
    ("meals_included", Dict.VStr "Not specified")];
   [("room_type", Dict.VStr "Deluxe Suite");
    ("description", Dict.VStr "N/A");
    ("price", Dict.VStr "N/A");
    ("cancellation_policy", Dict.VStr "N/A");
    ("max_occupancy", Dict.VStr "2 adults");
    ("available_units", Dict.VInt 0);
    ("price_per_unit", Dict.VStr "N/A");
    ("breakfast_included", Dict.VStr "No");
    ("meals_included", Dict.VStr "Not specified")]].

(** The only row has no room-type label. *)
Definition doc_unlabelled_first : node :=
  document [row_tag [occupancy_tag "Occupancy: 2 adults"]].

(** A labelled row whose quantity selector has no option. *)
Definition empty_select_row_node : node :=
  row_tag [label_tag "Deluxe Suite"; select_tag []].

Definition doc_empty_select : node := document [empty_select_row_node].

Definition empty_select_row : element := (1, empty_select_row_node).

Definition empty_select : element := (4, select_tag []).

(** A complete row, then a row whose quantity selector has no option. *)
Definition doc_second_row_empty_select : node :=
  document
    [row_tag [label_tag "Deluxe Suite"; select_tag ["0"; "1 ($100)"]];
     row_tag [select_tag []]].

(** A labelled row whose last quantity option shows no price. *)
Definition doc_no_currency : node :=
  document [row_tag [label_tag "Deluxe Suite"; select_tag ["0"; "1"]]].

Definition no_currency_record : Dict.dict :=
  [("room_type", Dict.VStr "Deluxe Suite");
   ("description", Dict.VStr "N/A");
   ("price", Dict.VStr "N/A");
   ("cancellation_policy", Dict.VStr "N/A");
   ("max_occupancy", Dict.VStr "N/A");
   ("available_units", Dict.VInt 1);
   ("breakfast_included", Dict.VStr "No");
   ("meals_included", Dict.VStr "Not specified")].

(** Two rows whose icons are not green; only the second row holds a
    policy modal. *)
Definition shared_first_row_node : node :=
  row_tag [label_tag "Standard Room"; icon_tag "#6B6B6B"].

Definition shared_modal_node : node := modal_tag "policyModal_2".

Definition shared_second_row_node : node :=
  row_tag [label_tag "Deluxe Suite"; icon_tag "#6B6B6B"; shared_modal_node;
           description_tag "Breakfast included for 2"].

Definition doc_shared_modal : node :=
  document [shared_first_row_node; shared_second_row_node].

Definition shared_first_row : element := (1, shared_first_row_node).
Definition shared_second_row : element := (5, shared_second_row_node).
Definition shared_modal : element := (9, shared_modal_node).

(** A row followed by a policy modal that holds its description block. *)
Definition doc_description_in_template : node :=
  document
    [row_tag [label_tag "Deluxe Suite"; icon_tag "#6B6B6B"];
     modal_with_description "policyModal_3" "Breakfast included for 2"].

End Samples.

(* ===================================================================== *)
(** ** The quantities the specification names *)
(* ===================================================================== *)

Module Spec.

Import Soup Dict Exc Parser.

(** The sentinel of a field that could not be extracted. *)
Definition SENTINEL : string := "N/A".

(** The text of the room-type label scoped to a row, the sentinel when
    the row has no label. *)
Definition label_text (row : element) : string :=
  text_or_na "" (select_one row ROOMTYPE_ICON_LINK).

(** The most recently seen room-type value that is not the sentinel,
    among the rows that precede. *)
Definition most_recent_label (preceding : list element) : option string :=
  find (fun t => negb (Str.eqb t SENTINEL)) (rev (map label_text preceding)).

(** The inline signal: the row has a breakfast icon and its fill colour
    is the defined green. *)
Definition icon_is_green (row : element) : bool :=
  match select_one row FOOD_COFFEE with
  | Some icon =>
      Str.eqb (PyStr.lower (get_default (node_of icon) "fill" "")) "#008009"
  | None => false
  end.

(** The description block that follows the Meals heading of a panel. *)
Definition meals_info_of (doc : node) (modal : element) : option element :=
  match find_string modal "h3" "Meals" with
  | Some meals_section =>
      find_next doc meals_section "div" (has_class "bui-list__description")
  | None => None
  end.

(** The first element after a row whose identifier starts with the panel
    prefix, whatever its name. *)
Definition first_with_panel_id (doc : node) (row : element) : option element :=
  find (fun e => is_policy_modal_id (node_of e)) (next_elements doc row).

(** The meals text of a detail panel, when the panel, its Meals heading
    and a description block after it are all found. *)
Definition panel_text (doc : node) (panel : option element) : option string :=
  match panel with
  | Some modal =>
      match meals_info_of doc modal with
      | Some meals_info => Some (get_text "" meals_info)
      | None => None
      end
  | None => None
  end.

(** The panel signal of a row. *)
Definition panel_meals_text (doc : node) (row : element) : option string :=
  panel_text doc (policy_modal_of doc row).

(** [meals_included] as the specification lists it, case by case. *)
Definition meals_field (doc : node) (panel : option element) : string :=
  match panel with
  | None => "Not specified"
  | Some modal =>
      match find_string modal "h3" "Meals" with
      | None => "No meals included"
      | Some heading =>
          match find_next doc heading "div" (has_class "bui-list__description") with
          | None => "Not specified"
          | Some block => get_text "" block
          end
      end
  end.

(** The text mentions breakfast, in any letter case. *)
Definition mentions_breakfast (text : string) : bool :=
  PyStr.contains "breakfast" (PyStr.lower text).

(** The panel says that breakfast is included. *)
Definition panel_says_breakfast (text : option string) : bool :=
  match text with
  | Some t => mentions_breakfast t
  | None => false
  end.

(** The two-signal merge: an OR. *)
Definition reconcile (inline panel : bool) : string :=
  if inline || panel then "Yes" else "No".

(** The number of available units of a row: the options of its quantity
    selector but one, and 0 without a selector. *)
Definition units_of (row : element) : Z :=
  match select_one row NOS_SELECT with
  | Some select_elem => count_units (find_all select_elem "option")
  | None => 0%Z
  end.

(** The text of the last option of the quantity selector of a row. *)
Definition last_option_text (row : element) : option string :=
  match select_one row NOS_SELECT with
  | Some select_elem =>
      match rev (find_all select_elem "option") with
      | last_option :: _ => Some (get_text "" last_option)
      | [] => None
      end
  | None => None
  end.

(** The substring after the last [c]; the whole string without a [c]. *)
Fixpoint after_last (c : char) (s : string) : string :=
  match s with
  | EmptyString => EmptyString
  | String a s' =>
      if PyStr.contains (String c EmptyString) s' then after_last c s'
      else if N.eqb a c then s' else s
  end.

(** The substring up to the first [c]; the whole string without a [c]. *)
Fixpoint before_first (c : char) (s : string) : string :=
  match s with
  | EmptyString => EmptyString
  | String a s' =>
      if N.eqb a c then EmptyString else String a (before_first c s')
  end.

(** The numeric price of an option text: what follows the currency marker
    up to the next closing parenthesis, thousands separators removed. *)
Definition price_of (option_text : string) : string :=
  PyStr.remove_char "," (before_first ")" (after_last "$" option_text)).

(** What lines 73-85 leave under [price_per_unit]: the price, the
    sentinel, or no entry at all when units are available and the last
    option shows no currency marker. *)
Definition price_per_unit_entry (row : element) : option value :=
  match last_option_text row with
  | Some option_text =>
      if (0 <? units_of row)%Z then
        if PyStr.contains "$" option_text
        then Some (VStr (price_of option_text))
        else None
      else Some (VStr SENTINEL)
  | None => Some (VStr SENTINEL)
  end.

(** The field names of a record, in order. *)
Definition FIELDS : list string :=
  ["room_type"; "description"; "price"; "cancellation_policy";
   "max_occupancy"; "available_units"; "price_per_unit";
   "breakfast_included"; "meals_included"].

(** The field names of a record that has no [price_per_unit]. *)
Definition FIELDS_WITHOUT_PRICE_PER_UNIT : list string :=
  ["room_type"; "description"; "price"; "cancellation_policy";
   "max_occupancy"; "available_units";
   "breakfast_included"; "meals_included"].

(** The carried room type after a row, from the one before it. *)
Definition carry (current : option string) (row : element) : option string :=
  if Str.eqb (label_text row) SENTINEL then current else Some (label_text row).

End Spec.

(* ===================================================================== *)
(** ** The record of a row, written out *)
(* ===================================================================== *)

Module RowRecord.

Import Soup Dict Exc Parser Spec.

(** The record that lines 38-122 build for a row, field by field, given
    the room type that line 47 stores. *)
Definition record_of (doc : node) (row : element) (room_type : string) : dict :=
  [("room_type", VStr room_type);
   ("description", VStr (text_or_na " " (select_one row ROOMTYPE_LINK)));
   ("price", VStr (text_or_na "" (select_one row PRICE)));
   ("cancellation_policy", VStr (text_or_na "" (select_one row CONDITIONS)));
   ("max_occupancy",
    VStr (PyStr.strip (after_last ":" (text_or_na "" (select_one row OCCUPANCY)))));
   ("available_units", VInt (units_of row))]
  ++ match price_per_unit_entry row with
     | Some v => [("price_per_unit", v)]
     | None => []
     end
  ++ [("breakfast_included",
       VStr (reconcile (icon_is_green row)
               (panel_says_breakfast (panel_meals_text doc row))));
      ("meals_included", VStr (meals_field doc (policy_modal_of doc row)))].

(** The quantity selector of the row, if it has one, has an option. *)
Definition has_options (row : element) : bool :=
  match select_one row NOS_SELECT with
  | Some select_elem =>
      match find_all select_elem "option" with
      | [] => false
      | _ :: _ => true
      end
  | None => true
  end.

(** The loop body as one expression: what it raises and what it returns. *)
Definition row_outcome (doc : node) (row : element) (current : option string)
  : result (dict * option string) :=
  match carry current row with
  | None => Raise UnboundLocalError
  | Some room_type =>
      if has_options row then Return (record_of doc row room_type, Some room_type)
      else Raise IndexError
  end.

(** The records of the rows from a carried room type on. Each row takes
    the room type carried up to and including itself; a row that has none
    ends the list (the pass raises there). *)
Fixpoint records_from (doc : node) (current : option string)
  (rows : list element) : list dict :=
  match rows with
  | [] => []
  | row :: rows' =>
      match carry current row with
      | Some room_type =>
          record_of doc row room_type :: records_from doc (Some room_type) rows'
      | None => []
      end
  end.

(** The whole pass as one expression. *)
Definition pass_outcome (soup : node) : result (list dict) :=
  match room_rows soup with
  | [] => Return []
  | row :: _ =>
      if Str.eqb (label_text row) SENTINEL then Raise UnboundLocalError
      else if forallb has_options (room_rows soup)
           then Return (records_from soup None (room_rows soup))
           else Raise IndexError
  end.

End RowRecord.

(* ===================================================================== *)
(** ** The parser object: [__init__], [load_html] and lazy loading *)
(* ===================================================================== *)

Module Loader.

Import Soup Dict Exc Parser.

(** The attributes of a [BookingHTMLParser]. [soup] is [None] until the
    file was loaded. *)
Record BookingHTMLParser : Type := {
  html_path : string;
  soup : option node
}.

(** Lines 7-15. *)
Definition init (html_path : string) : BookingHTMLParser :=
  {| html_path := html_path; soup := None |}.

Section World.

(** What opening and parsing a file may raise. *)
Variable io_error : Type.

(** The file system together with the HTML parser: opening the file at a
    path and parsing it gives a tree or raises. *)
Definition world : Type := string -> io_error + node.

(** How a call on the object ends. *)
Inductive outcome (A : Type) : Type :=
| Done (a : A)
| LoadFailed (e : io_error)
| Raised (e : exn).

Definition of_result {A : Type} (r : result A) : outcome A :=
  match r with
  | Return a => Done _ a
  | Raise e => Raised _ e
  end.

(** Lines 17-20: [self.soup] is assigned only when the file was opened and
    parsed. *)
Definition load_html (w : world) (self : BookingHTMLParser)
  : io_error + BookingHTMLParser :=
  match w (html_path self) with
  | inr tree => inr {| html_path := html_path self; soup := Some tree |}
  | inl e => inl e
  end.

(** Lines 32-124 on the object: [self.soup.select] and the loop. Without
    a tree, [self.soup.select] is an attribute of [None]. *)
Definition run_extraction (self : BookingHTMLParser)
  : outcome (list dict) :=
  match soup self with
  | Some tree => of_result (extract_room_data tree)
  | None => Raised _ AttributeError
  end.

(** Lines 22-124, the method: load the file when no tree is there, then
    extract. It returns the object as the call leaves it. *)
Definition extract_room_data_method (w : world) (self : BookingHTMLParser)
  : BookingHTMLParser * outcome (list dict) :=
  match soup self with
  | Some _ => (self, run_extraction self)
  | None =>
      match load_html w self with
      | inr self' => (self', run_extraction self')
      | inl e => (self, LoadFailed _ e)
      end
  end.

End World.

Arguments Done {io_error A} a.
Arguments LoadFailed {io_error A} e.
Arguments Raised {io_error A} e.

End Loader.

(* ===================================================================== *)
(** ** The table: [get_availability_table] *)
(* ===================================================================== *)

Module Table.

Import Soup Dict Exc Parser Loader.

(** A data frame built from records: its column labels and, for every
    record, one cell per column; a cell is [None] (a missing value) when
    the record has no such key. *)
Record DataFrame : Type := {
  columns : list string;
  rows : list (list (option value))
}.

(** The keys of a record that are not columns yet, added at the end in
    the order of the record. *)
Definition add_columns (cols : list string) (ks : list string) : list string :=
  fold_left (fun cols k => if existsb (Str.eqb k) cols then cols else cols ++ [k])
            ks cols.

(** [pd.DataFrame(records)] for a list of dictionaries: the columns are
    the keys in the order in which they first appear. *)
Definition DataFrame_of (records : list dict) : DataFrame :=
  let columns := fold_left (fun cols r => add_columns cols (keys r)) records [] in
  {| columns := columns;
     rows := map (fun r => map (fun c => lookup c r) columns) records |}.

(** [len(df)] *)
Definition len (df : DataFrame) : nat := length (rows df).

(** Lines 126-134. *)
Definition get_availability_table {io_error : Type} (w : world io_error)
  (self : BookingHTMLParser) : BookingHTMLParser * outcome io_error DataFrame :=
  let '(self, out) := extract_room_data_method io_error w self in
  (self,
   match out with
   | Done room_data => Done (DataFrame_of room_data)
   | LoadFailed e => LoadFailed e
   | Raised e => Raised e
   end).

End Table.

(* ===================================================================== *)
(** ** More sample documents, and sample file systems *)
(* ===================================================================== *)

Module MoreSamples.

Import Soup Dict Samples Loader.

(** A row whose last option shows no price, then a row whose last option
    shows one. *)
Definition doc_mixed_prices : node :=
  document
    [row_tag [label_tag "Deluxe Suite"; select_tag ["0"; "1"]];
     row_tag [select_tag ["0"; "1 ($100)"]]].

(** The row segment of [doc_no_currency]. *)
Definition no_currency_row : element :=
  (1, row_tag [label_tag "Deluxe Suite"; select_tag ["0"; "1"]]).

(** A labelled row, a row whose label element holds blanks only, and a
    row without a label. *)
Definition blank_label_row_node : node := row_tag [label_tag "  "].

Definition doc_blank_label : node :=
  document [row_tag [label_tag "Deluxe Suite"]; blank_label_row_node; row_tag []].

Definition blank_label_row : element := (4, blank_label_row_node).

Definition blank_label : element := (5, label_tag "  ").

(** The complete row of [doc_full], with nothing after it. *)
Definition doc_full_row_alone : node := document [full_row_node].

(** A file system with one file, which parses to [doc_full]. *)
Definition one_file_world : world unit :=
  fun path => if Str.eqb path "booking.html" then inr doc_full else inl tt.

(** A file system without any file. *)
Definition no_file_world : world unit := fun _ => inl tt.

(** A row whose last option shows its price with blanks around it. *)
Definition doc_spaced_price : node :=
  document [row_tag [label_tag "Deluxe Suite"; select_tag ["0"; "1 ($ 100 )"]]].

(** An object that holds the tree [doc_mixed_prices]. *)
Definition mixed_parser : BookingHTMLParser :=
  {| html_path := "booking.html"; soup := Some doc_mixed_prices |}.

(** The records of [doc_mixed_prices]. *)
Definition mixed_rooms : list dict :=
  [[("room_type", VStr "Deluxe Suite");
    ("description", VStr "N/A");
    ("price", VStr "N/A");
    ("cancellation_policy", VStr "N/A");
    ("max_occupancy", VStr "N/A");
    ("available_units", VInt 1);
    ("breakfast_included", VStr "No");
    ("meals_included", VStr "Not specified")];
   [("room_type", VStr "Deluxe Suite");
    ("description", VStr "N/A");
    ("price", VStr "N/A");
    ("cancellation_policy", VStr "N/A");
    ("max_occupancy", VStr "N/A");
    ("available_units", VInt 1);
    ("price_per_unit", VStr "100");
    ("breakfast_included", VStr "No");
    ("meals_included", VStr "Not specified")]].

(** The table of [doc_mixed_prices]: the column of the price per unit
    comes last, and its first cell is missing. *)
Definition mixed_table : Table.DataFrame :=
  {| Table.columns :=
       ["room_type"; "description"; "price"; "cancellation_policy";
        "max_occupancy"; "available_units"; "breakfast_included";
        "meals_included"; "price_per_unit"];
     Table.rows :=
       [[Some (VStr "Deluxe Suite"); Some (VStr "N/A"); Some (VStr "N/A");
         Some (VStr "N/A"); Some (VStr "N/A"); Some (VInt 1);
         Some (VStr "No"); Some (VStr "Not specified"); None];
        [Some (VStr "Deluxe Suite"); Some (VStr "N/A"); Some (VStr "N/A");
         Some (VStr "N/A"); Some (VStr "N/A"); Some (VInt 1);
         Some (VStr "No"); Some (VStr "Not specified");
         Some (VStr "100")]] |}.

(** A labelled row, then a row whose label element reads as the
    sentinel. *)
Definition sentinel_label_row_node : node := row_tag [label_tag "N/A"].

Definition doc_sentinel_label : node :=
  document [row_tag [label_tag "Deluxe Suite"]; sentinel_label_row_node].

Definition sentinel_label_row : element := (4, sentinel_label_row_node).

Definition sentinel_label : element := (5, label_tag "N/A").

(** A row followed by a [div] and by a [template], both with a panel
    identifier. *)
Definition div_row_node : node := row_tag [label_tag "Deluxe Suite"].

Definition div_panel_node : node := Tag "div" [] [("id", "policyModal_0")] [].

Definition doc_div_before_template : node :=
  document [div_row_node; div_panel_node; modal_tag "policyModal_1"].

Definition div_row : element := (1, div_row_node).

Definition div_panel : element := (4, div_panel_node).

Definition template_after_div : element := (5, modal_tag "policyModal_1").

(** The elements of [doc_description_in_template]: the row, its panel,
    the Meals heading and the description block, both inside the panel. *)
Definition template_row : element :=
  (1, row_tag [label_tag "Deluxe Suite"; icon_tag "#6B6B6B"]).

Definition template_modal : element :=
  (5, modal_with_description "policyModal_3" "Breakfast included for 2").

Definition template_heading : element := (6, meals_heading).

Definition template_block : element :=
  (8, Tag "div" ["bui-list__description"] []
          [NavigableString TemplateString "Breakfast included for 2"]).

(** The no-break space, [&nbsp;] in a page. *)
Definition NBSP : char := 0xA0%N.

(** The Kelvin sign: a capital letter whose lower case is [k]. *)
Definition KELVIN : char := 0x212A%N.

(** A row whose label and occupancy are written with no-break spaces:
    [Max people:&nbsp;2&nbsp;]. *)
Definition nbsp_row_node : node :=
  row_tag [label_tag (String NBSP ("Deluxe Suite" ++ String NBSP ""));
           occupancy_tag ("Max people:" ++ String NBSP ("2" ++ String NBSP ""))].

Definition doc_nbsp : node := document [nbsp_row_node].

Definition nbsp_row : element := (1, nbsp_row_node).


Definition nbsp_record : dict :=
  [("room_type", VStr "Deluxe Suite");
   ("description", VStr "N/A");
   ("price", VStr "N/A");
   ("cancellation_policy", VStr "N/A");
   ("max_occupancy", VStr "2");
   ("available_units", VInt 0);
   ("price_per_unit", VStr "N/A");
   ("breakfast_included", VStr "No");
   ("meals_included", VStr "Not specified")].

(** The em space, another blank outside ASCII. *)
Definition EM_SPACE : char := 0x2003%N.

(** A labelled row, then a row whose label element holds a no-break
    space and an em space only. *)
Definition nbsp_blank_label_row_node : node :=
  row_tag [label_tag (String NBSP (String EM_SPACE ""))].

Definition doc_nbsp_blank_label : node :=
  document [row_tag [label_tag "Deluxe Suite"]; nbsp_blank_label_row_node].

Definition nbsp_blank_label_row : element := (4, nbsp_blank_label_row_node).

Definition nbsp_blank_label : element :=
  (5, label_tag (String NBSP (String EM_SPACE ""))).

(** The only row has a label that reads [&nbsp;N/A&nbsp;]. *)
Definition doc_nbsp_sentinel : node :=
  document [row_tag [label_tag (String NBSP ("N/A" ++ String NBSP ""))]].

(** A row whose icon is not green, its panel, and a description block
    after the panel that spells breakfast with a Kelvin sign. *)
Definition doc_kelvin : node :=
  document
    [row_tag [label_tag "Deluxe Suite"; icon_tag "#6B6B6B"];
     modal_tag "policyModal_4";
     description_tag ("BREA" ++ String KELVIN "FAST")].

(** A row followed by a panel whose identifier is the bare prefix. *)
Definition bare_prefix_row : element := (1, row_tag [label_tag "Deluxe Suite"]).

Definition doc_bare_prefix : node :=
  document [row_tag [label_tag "Deluxe Suite"]; modal_tag "policyModal_"].

Definition bare_prefix_modal : element := (4, modal_tag "policyModal_").

End MoreSamples.

(* ===================================================================== *)
(** ** Facts about strings *)
(* ===================================================================== *)

Module StrFacts.

Lemma eqb_spec (s t : string) : reflect (s = t) (Str.eqb s t).
Proof.
  revert t. induction s as [|c s IH]; intros [|d t]; simpl;
    try (constructor; congruence).
  destruct (N.eqb_spec c d) as [->|Hne]; simpl.
  - destruct (IH t) as [->|Hne]; constructor; congruence.
  - constructor; congruence.
Qed.

Lemma eqb_refl (s : string) : Str.eqb s s = true.
Proof. now destruct (eqb_spec s s). Qed.

Lemma eqb_eq (s t : string) : Str.eqb s t = true <-> s = t.
Proof. destruct (eqb_spec s t); split; congruence. Qed.

End StrFacts.

(* ===================================================================== *)
(** ** Facts about the string methods *)
(* ===================================================================== *)

Module PyStrFacts.

Import PyStr Exc.

Lemma split_not_nil (c : char) (s : string) : split c s <> [].
Proof.
  destruct s as [|a s]; simpl; [discriminate|].
  destruct (N.eqb a c); [discriminate|].
  destruct (split c s); discriminate.
Qed.

(** Without a separator there is one piece, the string itself. *)
Lemma split_no_sep (c : char) (s : string) :
  ~ occurs c s -> split c s = [s].
Proof.
  induction s as [|a s IH]; simpl; intros Hno; [reflexivity|].
  destruct (N.eqb_spec a c) as [->|Hne].
  - exfalso. apply Hno. now left.
  - rewrite IH; [reflexivity|]. intros H. apply Hno. now right.
Qed.

(** Splitting distributes over a separator. *)
Lemma split_app (c : char) (pre post : string) :
  split c (pre ++ String c post)%string = split c pre ++ split c post.
Proof.
  induction pre as [|a pre IH]; simpl.
  - now rewrite N.eqb_refl.
  - destruct (N.eqb a c); [now rewrite IH|].
    rewrite IH. destruct (split c pre) as [|h t] eqn:E.
    + now apply split_not_nil in E.
    + reflexivity.
Qed.

Lemma last_item_app {A : Type} (l1 l2 : list A) :
  l2 <> [] -> last_item (l1 ++ l2) = last_item l2.
Proof.
  intros Hne. unfold last_item. rewrite rev_app_distr.
  destruct (rev l2) as [|a r] eqn:E; [|reflexivity].
  apply (f_equal (@rev A)) in E. rewrite rev_involutive in E. now subst.
Qed.

Lemma first_item_app {A : Type} (l1 l2 : list A) :
  l1 <> [] -> first_item (l1 ++ l2) = first_item l1.
Proof. destruct l1; [congruence|reflexivity]. Qed.

(** [s.split(c)[-1]] is what follows the last [c]. *)
Lemma last_item_split (c : char) (pre post : string) :
  ~ occurs c post ->
  last_item (split c (pre ++ String c post)%string) = Return post.
Proof.
  intros Hno. rewrite split_app, last_item_app by apply split_not_nil.
  now rewrite split_no_sep.
Qed.

(** [s.split(c)[0]] is what precedes the first [c]. *)
Lemma first_item_split (c : char) (pre post : string) :
  ~ occurs c pre ->
  first_item (split c (pre ++ String c post)%string) = Return pre.
Proof.
  intros Hno. rewrite split_app, first_item_app by apply split_not_nil.
  now rewrite split_no_sep.
Qed.

Lemma last_item_split_no_sep (c : char) (s : string) :
  ~ occurs c s -> last_item (split c s) = Return s.
Proof. intros Hno. now rewrite split_no_sep. Qed.

Lemma first_item_split_no_sep (c : char) (s : string) :
  ~ occurs c s -> first_item (split c s) = Return s.
Proof. intros Hno. now rewrite split_no_sep. Qed.

(** Neither index on the pieces of a split can be out of range. *)
Lemma last_item_split_returns (c : char) (s : string) :
  exists piece, last_item (split c s) = Return piece.
Proof.
  unfold last_item. destruct (rev (split c s)) as [|a r] eqn:E.
  - apply (f_equal (@rev string)) in E. rewrite rev_involutive in E.
    now apply split_not_nil in E.
  - now exists a.
Qed.

Lemma first_item_split_returns (c : char) (s : string) :
  exists piece, first_item (split c s) = Return piece.
Proof.
  destruct (split c s) as [|a r] eqn:E.
  - now apply split_not_nil in E.
  - now exists a.
Qed.

Lemma prefix_char (c : char) (s : string) :
  Str.prefix (String c EmptyString) s = true <->
  exists s', s = String c s'.
Proof.
  destruct s as [|a s]; simpl.
  - split; [discriminate|]. now intros [s' H].
  - destruct (N.eqb_spec c a) as [->|Hne]; simpl.
    + split; [now exists s|]. now destruct s.
    + split; [discriminate|]. intros [s' H]. congruence.
Qed.

(** [c in s] for a one-character string [c]. *)
Lemma contains_char (c : char) (s : string) :
  contains (String c EmptyString) s = true <-> occurs c s.
Proof.
  induction s as [|a s IH].
  - simpl. split; [discriminate|tauto].
  - cbn [contains occurs]. rewrite orb_true_iff, IH, prefix_char.
    split.
    + intros [[s' H]|H]; [left; congruence|now right].
    + intros [->|H]; [left; now exists s|now right].
Qed.

Lemma occurs_dec (c : char) (s : string) : {occurs c s} + {~ occurs c s}.
Proof.
  induction s as [|a s [IH|IH]]; simpl.
  - now right.
  - left. now right.
  - destruct (N.eq_dec a c) as [->|Hne]; [left; now left|right; tauto].
Qed.

(** Every string with a [c] splits at its last [c]. *)
Lemma occurs_last (c : char) (s : string) :
  occurs c s ->
  exists pre post, s = (pre ++ String c post)%string /\ ~ occurs c post.
Proof.
  induction s as [|a s IH]; simpl; [tauto|].
  intros H. destruct (occurs_dec c s) as [Hin|Hout].
  - destruct (IH Hin) as (pre & post & -> & Hno).
    now exists (String a pre), post.
  - destruct H as [->|H]; [|tauto]. now exists EmptyString, s.
Qed.

Lemma occurs_app (c : char) (s t : string) :
  occurs c (s ++ t)%string <-> occurs c s \/ occurs c t.
Proof. induction s as [|a s IH]; simpl; [tauto|rewrite IH; tauto]. Qed.

Lemma remove_char_no_occurrence (c : char) (s : string) :
  ~ occurs c (remove_char c s).
Proof.
  induction s as [|a s IH]; simpl; [tauto|].
  destruct (N.eqb_spec a c); simpl; tauto.
Qed.

Lemma not_occurs_contains (c : char) (s : string) :
  ~ occurs c s -> contains (String c EmptyString) s = false.
Proof.
  intros H. destruct (contains _ s) eqn:E; [|reflexivity].
  now apply contains_char in E.
Qed.

Lemma after_last_app (c : char) (pre post : string) :
  ~ occurs c post -> Spec.after_last c (pre ++ String c post)%string = post.
Proof.
  intros Hno. induction pre as [|a pre IH]; simpl.
  - now rewrite not_occurs_contains, N.eqb_refl.
  - assert (contains (String c EmptyString) (pre ++ String c post)%string = true)
      as ->; [|exact IH].
    apply contains_char, occurs_app. right. now left.
Qed.

Lemma after_last_no_sep (c : char) (s : string) :
  ~ occurs c s -> Spec.after_last c s = s.
Proof.
  destruct s as [|a s]; simpl; [reflexivity|]. intros Hno.
  rewrite not_occurs_contains by tauto.
  destruct (N.eqb_spec a c); [tauto|reflexivity].
Qed.

(** [s.split(c)[-1]] is the substring after the last [c]. *)
Lemma last_item_split_after_last (c : char) (s : string) :
  last_item (split c s) = Return (Spec.after_last c s).
Proof.
  destruct (occurs_dec c s) as [Hin|Hout].
  - destruct (occurs_last c s Hin) as (pre & post & -> & Hno).
    now rewrite last_item_split, after_last_app.
  - now rewrite last_item_split_no_sep, after_last_no_sep.
Qed.

(** [s.split(c)[0]] is the substring before the first [c]. *)
Lemma first_item_split_before_first (c : char) (s : string) :
  first_item (split c s) = Return (Spec.before_first c s).
Proof.
  induction s as [|a s IH]; simpl; [reflexivity|].
  destruct (N.eqb a c); [reflexivity|].
  destruct (split c s) as [|h t]; [discriminate|].
  simpl in *. congruence.
Qed.

(** [s.startswith(p)] *)
Lemma startswith_iff (s p : string) :
  startswith s p = true <-> exists suffix, s = (p ++ suffix)%string.
Proof.
  unfold startswith. revert s.
  induction p as [|a p IH]; intros s.
  - split; [now exists s|now destruct s].
  - destruct s as [|b s]; simpl; [split; [discriminate|now intros [? ?]]|].
    destruct (N.eqb_spec a b) as [->|Hne]; simpl.
    + rewrite IH. split; intros [suffix H]; exists suffix; congruence.
    + split; [discriminate|]. intros [suffix H]. congruence.
Qed.

End PyStrFacts.

(* ===================================================================== *)
(** ** Facts about dictionaries *)
(* ===================================================================== *)

Module DictFacts.

Import Dict Exc.

Lemma lookup_setitem (k k' : string) (v : value) (d : dict) :
  lookup k (setitem k' v d) = if Str.eqb k' k then Some v else lookup k d.
Proof.
  induction d as [|[k0 v0] d IH]; simpl; [reflexivity|].
  destruct (StrFacts.eqb_spec k0 k') as [->|Hne]; simpl.
  - destruct (Str.eqb k' k); reflexivity.
  - rewrite IH. destruct (StrFacts.eqb_spec k0 k) as [->|Hne'].
    + destruct (StrFacts.eqb_spec k' k); [congruence|reflexivity].
    + reflexivity.
Qed.

Lemma lookup_setitem_eq (k : string) (v : value) (d : dict) :
  lookup k (setitem k v d) = Some v.
Proof. now rewrite lookup_setitem, StrFacts.eqb_refl. Qed.

Lemma lookup_setitem_neq (k k' : string) (v : value) (d : dict) :
  k' <> k -> lookup k (setitem k' v d) = lookup k d.
Proof.
  intros Hne. rewrite lookup_setitem.
  now destruct (StrFacts.eqb_spec k' k).
Qed.

Lemma getitem_setitem_eq (k : string) (v : value) (d : dict) :
  getitem (setitem k v d) k = Return v.
Proof. unfold getitem. now rewrite lookup_setitem_eq. Qed.

(** Assigning to a key that is present keeps the keys; assigning to a new
    key appends it. *)
Lemma keys_setitem (k : string) (v : value) (d : dict) :
  keys (setitem k v d) =
  match lookup k d with
  | Some _ => keys d
  | None => keys d ++ [k]
  end.
Proof.
  unfold keys. induction d as [|[k0 v0] d IH]; simpl; [reflexivity|].
  destruct (StrFacts.eqb_spec k0 k) as [->|Hne]; simpl; [reflexivity|].
  rewrite IH. now destruct (lookup k d).
Qed.

Lemma lookup_none_keys (k : string) (d : dict) :
  lookup k d = None <-> ~ In k (keys d).
Proof.
  induction d as [|[k0 v0] d IH]; simpl; [tauto|].
  destruct (StrFacts.eqb_spec k0 k) as [->|Hne].
  - split; [discriminate|tauto].
  - rewrite IH. tauto.
Qed.

End DictFacts.

(* ===================================================================== *)
(** ** Facts about the blocks of the loop body *)
(* ===================================================================== *)

Module BlockFacts.

Import Soup Dict Exc Parser Spec DictFacts PyStrFacts.
Local Open Scope exc_scope.

Lemma bind_return_inv {A B : Type} (c : result A) (k : A -> result B) (b : B) :
  bind c k = Return b -> exists a, c = Return a /\ k a = Return b.
Proof. destruct c as [a|e]; simpl; [now exists a|discriminate]. Qed.

Section Row.

Variable doc : node.
Variable row : element.

(** Lines 41-47 as one equation: the block stores the carried value, and
    raises when nothing has been carried yet. *)
Lemma room_type_block_carry (current : option string) (d : dict) :
  room_type_block row current d =
  match carry current row with
  | Some t => Return (setitem "room_type" (VStr t) d, Some t)
  | None => Raise UnboundLocalError
  end.
Proof.
  unfold room_type_block, carry, label_text, SENTINEL.
  destruct (Str.eqb _ "N/A"); simpl; [|reflexivity].
  now destruct current.
Qed.

Lemma scalar_block_frame (k : string) (d : dict) :
  k <> "description" -> k <> "price" -> k <> "cancellation_policy" ->
  lookup k (scalar_block row d) = lookup k d.
Proof.
  intros H1 H2 H3. unfold scalar_block.
  now rewrite !lookup_setitem_neq by congruence.
Qed.

(** Lines 62-64 never raise. *)
Lemma occupancy_block_returns (d : dict) :
  exists piece,
    last_item (PyStr.split ":" (text_or_na "" (select_one row OCCUPANCY)))
    = Return piece /\
    occupancy_block row d =
    Return (setitem "max_occupancy" (VStr (PyStr.strip piece))
              (setitem "max_occupancy"
                 (VStr (text_or_na "" (select_one row OCCUPANCY))) d)).
Proof.
  destruct (last_item_split_returns ":" (text_or_na "" (select_one row OCCUPANCY)))
    as [piece Hpiece].
  exists piece. split; [exact Hpiece|].
  unfold occupancy_block. rewrite getitem_setitem_eq. simpl.
  now rewrite Hpiece.
Qed.

Lemma occupancy_block_frame (k : string) (d d' : dict) :
  k <> "max_occupancy" ->
  occupancy_block row d = Return d' -> lookup k d' = lookup k d.
Proof.
  intros Hk H. destruct (occupancy_block_returns d) as (piece & _ & E).
  rewrite E in H. injection H as <-.
  now rewrite !lookup_setitem_neq by congruence.
Qed.

(** Line 79 never raises. *)
Lemma option_price_returns (text : string) :
  exists price, option_price text = Return price.
Proof.
  unfold option_price.
  destruct (last_item_split_returns "$" text) as [after ->]. simpl.
  destruct (first_item_split_returns ")" after) as [before ->]. simpl.
  now eexists.
Qed.

(** Line 79 computes the price as the specification words it. *)
Lemma option_price_price_of (text : string) :
  option_price text = Return (price_of text).
Proof.
  unfold option_price, price_of.
  rewrite last_item_split_after_last. cbn [bind].
  now rewrite first_item_split_before_first.
Qed.

(** Lines 67-85, by cases on the selector. *)
Lemma units_block_absent (d : dict) :
  select_one row NOS_SELECT = None ->
  units_block row d =
  Return (setitem "price_per_unit" (VStr "N/A")
            (setitem "available_units" (VInt 0) d)).
Proof. intros E. unfold units_block. now rewrite E. Qed.

Lemma units_block_no_option (select_elem : element) (d : dict) :
  select_one row NOS_SELECT = Some select_elem ->
  find_all select_elem "option" = [] ->
  units_block row d = Raise IndexError.
Proof. intros E1 E2. unfold units_block. now rewrite E1, E2. Qed.

Lemma units_block_options (select_elem last_option : element) (d : dict) :
  select_one row NOS_SELECT = Some select_elem ->
  last_item (find_all select_elem "option") = Return last_option ->
  units_block row d =
  let available_units := count_units (find_all select_elem "option") in
  let d := setitem "available_units" (VInt available_units) d in
  if (0 <? available_units)%Z then
    if PyStr.contains "$" (get_text "" last_option) then
      price <- option_price (get_text "" last_option) ;;
      Return (setitem "price_per_unit" (VStr price) d)
    else Return d
  else Return (setitem "price_per_unit" (VStr "N/A") d).
Proof. intros E1 E2. unfold units_block. now rewrite E1, E2. Qed.

Lemma last_item_nil_iff {A : Type} (l : list A) :
  last_item l = Raise IndexError <-> l = [].
Proof.
  unfold last_item. split.
  - destruct (rev l) eqn:E; [|discriminate]. intros _.
    apply (f_equal (@rev A)) in E. now rewrite rev_involutive in E.
  - now intros ->.
Qed.

Lemma last_item_cases {A : Type} (l : list A) :
  (l = [] /\ last_item l = Raise IndexError) \/
  (exists a, l <> [] /\ last_item l = Return a).
Proof.
  destruct l as [|x l]; [now left|right].
  unfold last_item. destruct (rev (x :: l)) as [|a r] eqn:E.
  - apply (f_equal (@rev A)) in E. now rewrite rev_involutive in E.
  - exists a. now split.
Qed.

Lemma units_block_frame (k : string) (d d' : dict) :
  k <> "available_units" -> k <> "price_per_unit" ->
  units_block row d = Return d' -> lookup k d' = lookup k d.
Proof.
  intros H1 H2. unfold units_block.
  destruct (select_one row NOS_SELECT) as [select_elem|].
  - destruct (last_item (find_all select_elem "option")) as [last_option|];
      simpl; [|discriminate].
    destruct (0 <? _)%Z.
    + destruct (PyStr.contains _ _).
      * destruct (option_price_returns (get_text "" last_option)) as [p ->].
        simpl. intros [= <-]. now rewrite !lookup_setitem_neq by congruence.
      * intros [= <-]. now rewrite !lookup_setitem_neq by congruence.
    + intros [= <-]. now rewrite !lookup_setitem_neq by congruence.
  - intros [= <-]. now rewrite !lookup_setitem_neq by congruence.
Qed.

(** Lines 91-100 store the inline signal. *)
Lemma breakfast_icon_block_signal (d : dict) :
  breakfast_icon_block row d =
  setitem "breakfast_included" (VStr (reconcile (icon_is_green row) false)) d.
Proof.
  unfold breakfast_icon_block, icon_is_green, reconcile.
  destruct (select_one row FOOD_COFFEE) as [icon|]; [|reflexivity].
  simpl. now destruct (Str.eqb _ "#008009").
Qed.

(** Lines 103-120 on a record whose [breakfast_included] is set: the
    block returns, stores the meals field, may only raise the breakfast
    field from No to Yes, and touches nothing else. *)
Lemma meals_block_effect (panel : option element) (d : dict) (b : string) :
  lookup "breakfast_included" d = Some (VStr b) ->
  exists d',
    meals_block doc panel d = Return d' /\
    lookup "meals_included" d' = Some (VStr (meals_field doc panel)) /\
    lookup "breakfast_included" d' =
      Some (VStr (if panel_says_breakfast (panel_text doc panel) && Str.eqb b "No"
                  then "Yes" else b)) /\
    (forall k, k <> "meals_included" -> k <> "breakfast_included" ->
               lookup k d' = lookup k d) /\
    keys d' = keys (setitem "meals_included" (VStr "") d).
Proof.
  intros Hb.
  assert (Hkeys : forall v, keys (setitem "meals_included" v d)
                            = keys (setitem "meals_included" (VStr "") d)).
  { intros v. now rewrite !keys_setitem. }
  unfold meals_block, meals_field, panel_text, meals_info_of,
    panel_says_breakfast, mentions_breakfast.
  destruct panel as [modal|].
  2:{ eexists. split; [reflexivity|]. rewrite lookup_setitem_eq.
      rewrite lookup_setitem_neq by discriminate. simpl.
      repeat split; auto. intros k H1 H2. now rewrite lookup_setitem_neq. }
  destruct (find_string modal "h3" "Meals") as [meals_section|].
  2:{ eexists. split; [reflexivity|]. rewrite lookup_setitem_eq.
      rewrite lookup_setitem_neq by discriminate. simpl.
      repeat split; auto. intros k H1 H2. now rewrite lookup_setitem_neq. }
  destruct (find_next doc meals_section "div" _) as [meals_info|].
  2:{ eexists. split; [reflexivity|]. rewrite lookup_setitem_eq.
      rewrite lookup_setitem_neq by discriminate. simpl.
      repeat split; auto. intros k H1 H2. now rewrite lookup_setitem_neq. }
  cbv zeta.
  destruct (PyStr.contains "breakfast" _); simpl andb; cbv iota.
  2:{ eexists. split; [reflexivity|]. rewrite lookup_setitem_eq.
      rewrite lookup_setitem_neq by discriminate.
      repeat split; auto. intros k H1 H2. now rewrite lookup_setitem_neq. }
  unfold getitem. rewrite lookup_setitem_neq by discriminate. rewrite Hb.
  cbn [bind value_eqb].
  destruct (Str.eqb b "No").
  - eexists. split; [reflexivity|].
    rewrite lookup_setitem_eq, lookup_setitem_neq, lookup_setitem_eq
      by discriminate.
    repeat split; auto.
    + intros k H1 H2. now rewrite !lookup_setitem_neq by congruence.
    + rewrite keys_setitem, lookup_setitem_neq, Hb by discriminate. auto.
  - eexists. split; [reflexivity|]. rewrite lookup_setitem_eq.
    rewrite lookup_setitem_neq by discriminate.
    repeat split; auto. intros k H1 H2. now rewrite lookup_setitem_neq.
Qed.

(** The loop body, block by block. *)
Lemma extract_row_inv (current : option string) (r : dict)
  (current' : option string) :
  extract_row doc row current = Return (r, current') ->
  exists t d3 d4,
    carry current row = Some t /\ current' = Some t /\
    occupancy_block row (scalar_block row (setitem "room_type" (VStr t) empty))
    = Return d3 /\
    units_block row d3 = Return d4 /\
    meals_block doc (policy_modal_of doc row) (breakfast_icon_block row d4)
    = Return r.
Proof.
  unfold extract_row. rewrite room_type_block_carry.
  destruct (carry current row) as [t|]; simpl; [|discriminate].
  intros H.
  apply bind_return_inv in H as (d3 & E3 & H).
  apply bind_return_inv in H as (d4 & E4 & H).
  apply bind_return_inv in H as (d5 & E5 & H).
  injection H as <- <-.
  now exists t, d3, d4.
Qed.

(** After the icon block, the panel block always returns. *)
Lemma meals_block_returns (panel : option element) (d : dict) :
  exists d', meals_block doc panel (breakfast_icon_block row d) = Return d'.
Proof.
  rewrite breakfast_icon_block_signal.
  destruct (meals_block_effect panel
              (setitem "breakfast_included"
                 (VStr (reconcile (icon_is_green row) false)) d)
              (reconcile (icon_is_green row) false))
    as (d' & E & _); [apply lookup_setitem_eq|].
  now exists d'.
Qed.

(** What the last two blocks leave in the record. *)
Lemma row_tail (d4 r : dict) :
  meals_block doc (policy_modal_of doc row) (breakfast_icon_block row d4)
  = Return r ->
  lookup "meals_included" r
  = Some (VStr (meals_field doc (policy_modal_of doc row))) /\
  lookup "breakfast_included" r
  = Some (VStr (reconcile (icon_is_green row)
                  (panel_says_breakfast (panel_meals_text doc row)))) /\
  (forall k, k <> "meals_included" -> k <> "breakfast_included" ->
             lookup k r = lookup k d4) /\
  keys r = keys (setitem "meals_included" (VStr "")
                   (setitem "breakfast_included" (VStr "") d4)).
Proof.
  rewrite breakfast_icon_block_signal. intros H.
  destruct (meals_block_effect (policy_modal_of doc row)
              (setitem "breakfast_included"
                 (VStr (reconcile (icon_is_green row) false)) d4)
              (reconcile (icon_is_green row) false))
    as (d' & E & Hm & Hb & Hframe & Hkeys).
  { apply lookup_setitem_eq. }
  rewrite E in H. injection H as <-.
  repeat split.
  - exact Hm.
  - rewrite Hb. unfold panel_meals_text, reconcile.
    destruct (icon_is_green row); simpl; [now rewrite andb_false_r|].
    now destruct (panel_says_breakfast _).
  - intros k H1 H2. rewrite Hframe by assumption.
    now rewrite lookup_setitem_neq by congruence.
  - rewrite Hkeys, !keys_setitem, !lookup_setitem_neq by discriminate.
    reflexivity.
Qed.

(** The blocks after the occupancy do not touch the earlier fields. *)
Lemma late_blocks_frame (k : string) (d3 d4 r : dict) :
  k <> "available_units" -> k <> "price_per_unit" ->
  k <> "breakfast_included" -> k <> "meals_included" ->
  units_block row d3 = Return d4 ->
  meals_block doc (policy_modal_of doc row) (breakfast_icon_block row d4)
  = Return r ->
  lookup k r = lookup k d3.
Proof.
  intros H1 H2 H3 H4 E4 E5.
  destruct (row_tail d4 r E5) as (_ & _ & Hframe & _).
  rewrite Hframe by assumption.
  now apply units_block_frame.
Qed.

(** The record of a row carries the room type that the loop carries on. *)
Lemma row_room_type (current : option string) (r : dict)
  (current' : option string) :
  extract_row doc row current = Return (r, current') ->
  exists t, carry current row = Some t /\ current' = Some t /\
            lookup "room_type" r = Some (VStr t).
Proof.
  intros H. apply extract_row_inv in H as (t & d3 & d4 & Ec & -> & E3 & E4 & E5).
  exists t. repeat split; [exact Ec|].
  rewrite (late_blocks_frame "room_type" d3 d4 r) by (assumption || discriminate).
  rewrite (occupancy_block_frame "room_type" _ d3 ltac:(discriminate) E3).
  rewrite scalar_block_frame by discriminate.
  apply lookup_setitem_eq.
Qed.

(** A quantity selector without options ends the loop body with
    [IndexError], once the room type is settled. *)
Lemma option_less_selector_raises (current : option string)
  (select_elem : element) :
  carry current row <> None ->
  select_one row NOS_SELECT = Some select_elem ->
  find_all select_elem "option" = [] ->
  extract_row doc row current = Raise IndexError.
Proof.
  intros Hc Es Eo. unfold extract_row. rewrite room_type_block_carry.
  destruct (carry current row) as [t|]; [clear Hc|congruence]. cbn [bind].
  destruct (occupancy_block_returns
              (scalar_block row (setitem "room_type" (VStr t) empty)))
    as (piece & _ & ->). cbn [bind].
  now rewrite (units_block_no_option select_elem _ Es Eo).
Qed.

(** The loop body returns exactly when a room type is available and the
    quantity selector, if any, has an option. *)
Lemma extract_row_returns_iff (current : option string) :
  (exists r current', extract_row doc row current = Return (r, current')) <->
  carry current row <> None /\
  (forall select_elem, select_one row NOS_SELECT = Some select_elem ->
                       find_all select_elem "option" <> []).
Proof.
  split.
  - intros (r & current' & H).
    apply extract_row_inv in H as (t & d3 & d4 & Ec & -> & E3 & E4 & E5).
    split; [congruence|]. intros select_elem Es Eo.
    now rewrite (units_block_no_option select_elem d3 Es Eo) in E4.
  - intros [Hc Hs]. unfold extract_row. rewrite room_type_block_carry.
    destruct (carry current row) as [t|]; [clear Hc|congruence]. cbn [bind].
    destruct (occupancy_block_returns
                (scalar_block row (setitem "room_type" (VStr t) empty)))
      as (piece & _ & ->). cbn [bind].
    match goal with |- context [units_block row ?d] => set (d3 := d) end.
    assert (exists d4, units_block row d3 = Return d4) as [d4 ->].
    { destruct (select_one row NOS_SELECT) as [select_elem|] eqn:Es.
      - destruct (last_item_cases (find_all select_elem "option"))
          as [[Eo _]|(last_option & _ & El)]; [now apply Hs in Eo|].
        rewrite (units_block_options select_elem last_option d3 Es El).
        cbv zeta. destruct (0 <? _)%Z; [|now eexists].
        destruct (PyStr.contains _ _); [|now eexists].
        destruct (option_price_returns (get_text "" last_option)) as [p ->].
        now eexists.
      - rewrite units_block_absent by assumption. now eexists. }
    cbn [bind]. rewrite breakfast_icon_block_signal.
    destruct (meals_block_effect (policy_modal_of doc row)
                (setitem "breakfast_included"
                   (VStr (reconcile (icon_is_green row) false)) d4)
                (reconcile (icon_is_green row) false))
      as (d' & -> & _).
    { apply lookup_setitem_eq. }
    cbn [bind]. now eexists _, _.
Qed.

(** What a record holds for the two unit fields, and its keys: every
    field in order, except that [price_per_unit] may be missing. *)
Lemma row_units (current : option string) (r : dict)
  (current' : option string) :
  extract_row doc row current = Return (r, current') ->
  lookup "available_units" r = Some (VInt (units_of row)) /\
  (0 <= units_of row)%Z /\
  lookup "price_per_unit" r = price_per_unit_entry row /\
  keys r = match price_per_unit_entry row with
           | Some _ => FIELDS
           | None => FIELDS_WITHOUT_PRICE_PER_UNIT
           end.
Proof.
  intros H. apply extract_row_inv in H as (t & d3 & d4 & Ec & -> & E3 & E4 & E5).
  destruct (row_tail d4 r E5) as (_ & _ & Hframe & Hkeys).
  rewrite !Hframe by discriminate. rewrite Hkeys. clear Hframe Hkeys E5.
  destruct (occupancy_block_returns
              (scalar_block row (setitem "room_type" (VStr t) empty)))
    as (piece & _ & E3').
  rewrite E3' in E3. injection E3 as <-. clear E3'.
  unfold price_per_unit_entry, last_option_text, units_of.
  destruct (select_one row NOS_SELECT) as [select_elem|] eqn:Es.
  - destruct (last_item_cases (find_all select_elem "option"))
      as [[Eo _]|(last_option & Hne & El)].
    { now rewrite (units_block_no_option select_elem _ Es Eo) in E4. }
    rewrite (units_block_options select_elem last_option _ Es El) in E4.
    cbv zeta in E4.
    assert (Hrev : exists others,
               rev (find_all select_elem "option") = last_option :: others).
    { unfold last_item in El.
      destruct (rev (find_all select_elem "option")) as [|a others];
        [discriminate|]. injection El as ->. now exists others. }
    destruct Hrev as [others ->].
    assert (Hpos : (0 <= count_units (find_all select_elem "option"))%Z).
    { unfold count_units. destruct (find_all select_elem "option");
        [congruence|simpl length; lia]. }
    destruct (0 <? count_units _)%Z.
    + destruct (PyStr.contains "$" _).
      * rewrite option_price_price_of in E4. cbn [bind] in E4.
        injection E4 as <-. repeat split; auto.
      * injection E4 as <-. repeat split; auto.
    + injection E4 as <-. repeat split; auto.
  - rewrite units_block_absent in E4 by assumption. injection E4 as <-.
    repeat split; auto. lia.
Qed.

End Row.

End BlockFacts.

(* ===================================================================== *)
(** ** Facts about the loop *)
(* ===================================================================== *)

Module LoopFacts.

Import Soup Dict Exc Parser Spec DictFacts PyStrFacts BlockFacts.
Local Open Scope exc_scope.

Lemma extract_row_carry (doc : node) (row : element)
  (current : option string) (r : dict) (current' : option string) :
  extract_row doc row current = Return (r, current') ->
  current' = carry current row.
Proof.
  intros H. apply row_room_type in H as (t & Ec & -> & _). now rewrite Ec.
Qed.

(** A completed loop appended one record per row, each computed from the
    room type carried over the rows before it. *)
Lemma for_rows_inv (doc : node) (rows : list element) :
  forall (current : option string) (rooms out : list dict),
    for_rows doc rows current rooms = Return out ->
    exists records,
      out = rooms ++ records /\
      length records = length rows /\
      forall i row r,
        nth_error rows i = Some row -> nth_error records i = Some r ->
        extract_row doc row (fold_left carry (firstn i rows) current)
        = Return (r, fold_left carry (firstn (S i) rows) current).
Proof.
  induction rows as [|row0 rows IH]; intros current rooms out H.
  - injection H as <-. exists []. rewrite app_nil_r.
    repeat split. intros [|i] row r; discriminate.
  - cbn [for_rows] in H.
    apply bind_return_inv in H as ([r0 c0] & E0 & H).
    pose proof (extract_row_carry _ _ _ _ _ E0) as Hc.
    apply IH in H as (records & -> & Hlen & Hnth).
    exists (r0 :: records). rewrite <- app_assoc. repeat split.
    + simpl. now rewrite Hlen.
    + intros [|i] row r Hrow Hr.
      * injection Hrow as <-. injection Hr as <-. simpl. now rewrite <- Hc.
      * simpl in Hrow, Hr. specialize (Hnth i row r Hrow Hr).
        cbn [firstn fold_left]. now rewrite <- Hc.
Qed.

(** The loop completes exactly when its body does on every row. *)
Lemma for_rows_returns_iff (doc : node) (rows : list element) :
  forall (current : option string) (rooms : list dict),
    (exists out, for_rows doc rows current rooms = Return out) <->
    (forall i row,
        nth_error rows i = Some row ->
        exists r c,
          extract_row doc row (fold_left carry (firstn i rows) current)
          = Return (r, c)).
Proof.
  induction rows as [|row0 rows IH]; intros current rooms.
  - split; [intros _ [|i] row; discriminate|]. intros _. now exists rooms.
  - split.
    + intros [out H]. apply for_rows_inv in H as (records & _ & Hlen & Hnth).
      intros i row Hrow.
      destruct (nth_error records i) as [r|] eqn:Er.
      * eexists _, _. exact (Hnth i row r Hrow Er).
      * apply nth_error_None in Er.
        assert (i < length (row0 :: rows)) by (apply nth_error_Some; congruence).
        lia.
    + intros Hall. destruct (Hall 0 row0 eq_refl) as (r0 & c0 & E0).
      simpl in E0. cbn [for_rows]. rewrite E0. cbn [bind].
      apply IH. intros i row Hrow.
      specialize (Hall (S i) row Hrow). cbn [firstn fold_left] in Hall.
      now rewrite (extract_row_carry _ _ _ _ _ E0).
Qed.

(** The carried room type is the most recent label that is not the
    sentinel. *)
Lemma fold_carry_most_recent (rows : list element) :
  fold_left carry rows None = most_recent_label rows.
Proof.
  induction rows as [|row rows IH] using rev_ind; [reflexivity|].
  rewrite fold_left_app. simpl. rewrite IH.
  unfold most_recent_label, carry. rewrite map_app, rev_app_distr. simpl.
  now destruct (Str.eqb (label_text row) SENTINEL).
Qed.

Lemma most_recent_label_not_sentinel (rows : list element) (t : string) :
  most_recent_label rows = Some t -> t <> SENTINEL.
Proof.
  unfold most_recent_label. intros H. apply find_some in H as [_ H].
  now destruct (StrFacts.eqb_spec t SENTINEL).
Qed.

Lemma fold_carry_some (rows : list element) (t : string) :
  exists t', fold_left carry rows (Some t) = Some t'.
Proof.
  revert t. induction rows as [|row rows IH]; intros t; [now exists t|].
  simpl. unfold carry at 2. destruct (Str.eqb _ _); apply IH.
Qed.

(** A first row without a label ends the pass with [UnboundLocalError]. *)
Lemma unlabelled_first_row_raises (soup : node) (row : element)
  (rest : list element) :
  room_rows soup = row :: rest ->
  label_text row = SENTINEL ->
  extract_room_data soup = Raise UnboundLocalError.
Proof.
  intros Erows Hlabel. unfold extract_room_data. rewrite Erows.
  cbn [for_rows]. unfold extract_row. rewrite room_type_block_carry.
  unfold carry. now rewrite Hlabel, StrFacts.eqb_refl.
Qed.

(** Every completed pass returns as many records as there are rows. *)
Lemma extract_room_data_length (soup : node) (rooms : list dict) :
  extract_room_data soup = Return rooms ->
  length rooms = length (room_rows soup).
Proof.
  intros H. apply for_rows_inv in H as (records & -> & Hlen & _).
  exact Hlen.
Qed.

(** A pass completes exactly when the first row, if any, has a label that
    is not the sentinel and no row has a quantity selector without
    options. *)
Lemma extract_room_data_returns_iff (soup : node) :
  (exists rooms, extract_room_data soup = Return rooms) <->
  (forall row rest, room_rows soup = row :: rest -> label_text row <> SENTINEL) /\
  (forall row select_elem,
      In row (room_rows soup) ->
      select_one row NOS_SELECT = Some select_elem ->
      find_all select_elem "option" <> []).
Proof.
  unfold extract_room_data. rewrite for_rows_returns_iff. split.
  - intros Hall. split.
    + intros row rest Erows Hlabel. rewrite Erows in Hall.
      destruct (Hall 0 row eq_refl) as (r & c & E).
      assert (Hret : exists r c, extract_row soup row None = Return (r, c))
        by now exists r, c.
      apply extract_row_returns_iff in Hret as [Hc _].
      apply Hc. unfold carry. now rewrite Hlabel, StrFacts.eqb_refl.
    + intros row select_elem Hin Es.
      apply In_nth_error in Hin as [i Hi].
      destruct (Hall i row Hi) as (r & c & E).
      assert (Hret : exists r c,
                 extract_row soup row
                   (fold_left carry (firstn i (room_rows soup)) None)
                 = Return (r, c)) by now exists r, c.
      apply extract_row_returns_iff in Hret as [_ Hs]. now apply Hs.
  - intros [Hfirst Hsel] i row Hi.
    apply extract_row_returns_iff. split.
    + destruct (room_rows soup) as [|row0 rest] eqn:Erows;
        [now destruct i|].
      specialize (Hfirst row0 rest eq_refl).
      destruct i as [|i].
      * injection Hi as <-. simpl. unfold carry.
        destruct (StrFacts.eqb_spec (label_text row0) SENTINEL); congruence.
      * cbn [firstn fold_left].
        assert (carry None row0 = Some (label_text row0)) as ->.
        { unfold carry.
          destruct (StrFacts.eqb_spec (label_text row0) SENTINEL); congruence. }
        destruct (fold_carry_some (firstn i rest) (label_text row0)) as [t' ->].
        unfold carry. now destruct (Str.eqb _ _).
    + intros select_elem. apply Hsel. eapply nth_error_In. exact Hi.
Qed.

End LoopFacts.

(* ===================================================================== *)
(** ** Facts about the tree and its document order *)
(* ===================================================================== *)

Module SoupFacts.

Import Soup Parser.

(** Induction on a tree, with the property assumed of every child. *)
Lemma node_forest_ind (P : node -> Prop) :
  (forall cls text, P (NavigableString cls text)) ->
  (forall name classes attrs contents,
      Forall P contents -> P (Tag name classes attrs contents)) ->
  forall n, P n.
Proof.
  intros Htext Htag. fix IH 1. intros [cls text|name classes attrs contents].
  - apply Htext.
  - apply Htag. induction contents as [|c contents IHc]; constructor.
    + apply IH.
    + exact IHc.
Qed.

(** [find] returns the first element that passes the test. *)
Lemma find_first {A : Type} (p : A -> bool) (l : list A) (x : A) :
  find p l = Some x ->
  exists before after,
    l = before ++ x :: after /\ p x = true /\
    forall y, In y before -> p y = false.
Proof.
  induction l as [|a l IH]; simpl; [discriminate|].
  destruct (p a) eqn:Ea.
  - intros [= ->]. exists [], l. now repeat split.
  - intros H. destruct (IH H) as (before & after & -> & Hx & Hb).
    exists (a :: before), after. repeat split; [exact Hx|].
    intros y [<-|Hy]; [exact Ea|now apply Hb].
Qed.


Lemma enumerate_app (start : nat) (l1 l2 : list node) :
  enumerate start (l1 ++ l2)
  = enumerate start l1 ++ enumerate (start + length l1) l2.
Proof.
  revert start. induction l1 as [|n l1 IH]; intros start; simpl.
  - now rewrite Nat.add_0_r.
  - now rewrite IH, Nat.add_succ_r.
Qed.

Lemma skipn_enumerate (k start : nat) (l : list node) :
  skipn k (enumerate start l) = enumerate (start + k) (skipn k l).
Proof.
  revert start l. induction k as [|k IH]; intros start l.
  - now rewrite Nat.add_0_r.
  - destruct l as [|n l]; [reflexivity|]. simpl.
    now rewrite IH, Nat.add_succ_r.
Qed.

Lemma In_enumerate (start : nat) (l : list node) (e : element) :
  In e (enumerate start l) <->
  start <= position e /\ nth_error l (position e - start) = Some (node_of e).
Proof.
  revert start. induction l as [|n l IH]; intros start; simpl.
  - split; [tauto|]. intros [_ H]. now destruct (position e - start).
  - rewrite IH. destruct e as [i m]. unfold position, node_of. simpl. split.
    + intros [[= <- <-]|[Hle Hnth]].
      * split; [lia|]. now rewrite Nat.sub_diag.
      * split; [lia|]. replace (i - start) with (S (i - S start)) by lia.
        exact Hnth.
    + intros [Hle Hnth]. destruct (i - start) as [|k] eqn:Ek.
      * left. injection Hnth as ->. f_equal. lia.
      * right. split; [lia|]. now replace (i - S start) with k by lia.
Qed.

(** In document order a node is directly followed by its descendants. *)
Lemma descendants_follow (n : node) :
  forall i m,
    nth_error (descendants n) i = Some m ->
    exists rest, skipn (S i) (descendants n) = descendants m ++ rest.
Proof.
  induction n as [cls text|name classes attrs contents IH] using node_forest_ind;
    intros i m; [now destruct i|].
  cbn [descendants]. revert i.
  induction IH as [|c contents Hc _ IHcontents]; intros i; [now destruct i|].
  cbn [flat_map]. destruct i as [|i].
  - intros [= ->]. now eexists.
  - cbn [app nth_error]. rewrite skipn_cons. intros Hnth.
    destruct (Nat.lt_ge_cases i (length (descendants c))) as [Hlt|Hge].
    + rewrite nth_error_app1 in Hnth by assumption.
      destruct (Hc i m Hnth) as [rest Hrest].
      rewrite skipn_app, Hrest.
      replace (S i - length (descendants c)) with 0 by lia.
      rewrite <- app_assoc. now eexists.
    + rewrite nth_error_app2 in Hnth by assumption.
      destruct (IHcontents _ Hnth) as [rest Hrest].
      rewrite skipn_app, (skipn_all2 (descendants c)) by lia.
      replace (S i - length (descendants c))
        with (S (i - length (descendants c))) by lia.
      rewrite Hrest. now eexists.
Qed.

(** The elements after an element of the document start with its own
    descendants and go on with the rest of the document. *)
Lemma next_elements_start_with_descendants (doc : node) (e : element) :
  In e (enumerate 0 (document_order doc)) ->
  exists rest, next_elements doc e = descendants_of e ++ rest.
Proof.
  intros Hin. apply In_enumerate in Hin as [_ Hnth].
  rewrite Nat.sub_0_r in Hnth.
  unfold next_elements, descendants_of. rewrite skipn_enumerate.
  assert (exists rest,
             skipn (S (position e)) (document_order doc)
             = descendants (node_of e) ++ rest) as [rest ->].
  { unfold document_order in *. destruct (position e) as [|i].
    - injection Hnth as <-. exists []. now rewrite app_nil_r.
    - now apply descendants_follow. }
  rewrite enumerate_app. now eexists.
Qed.

(** Every element after [e] comes later in the document than [e]. *)
Lemma next_elements_later (doc : node) (e e' : element) :
  In e' (next_elements doc e) -> position e < position e'.
Proof.
  unfold next_elements. rewrite skipn_enumerate. intros H.
  apply In_enumerate in H as [H _]. simpl in H. lia.
Qed.

(** The queries stay inside the document: what follows an element, and
    what lies below an element of the document, are elements of it. *)
Lemma next_elements_in_document (doc : node) (e e' : element) :
  In e' (next_elements doc e) -> In e' (enumerate 0 (document_order doc)).
Proof.
  unfold next_elements. intros H.
  rewrite <- (firstn_skipn (S (position e)) (enumerate 0 (document_order doc))).
  apply in_or_app. now right.
Qed.

Lemma descendants_in_document (doc : node) (e e' : element) :
  In e (enumerate 0 (document_order doc)) ->
  In e' (descendants_of e) -> In e' (enumerate 0 (document_order doc)).
Proof.
  intros He He'. destruct (next_elements_start_with_descendants doc e He)
    as [rest Hrest].
  apply (next_elements_in_document doc e). rewrite Hrest.
  apply in_or_app. now left.
Qed.

(** The row segments are elements of the document. *)
Lemma room_rows_in_document (soup : node) (row : element) :
  In row (room_rows soup) -> In row (enumerate 0 (document_order soup)).
Proof.
  unfold room_rows, select. intros H. apply filter_In in H as [H _].
  right. exact H.
Qed.

End SoupFacts.

(* ===================================================================== *)
(** ** Facts about the test of line 88 *)
(* ===================================================================== *)

Module PanelFacts.

Import Soup Parser PyStr PyStrFacts.

(** The test on the identifier: a tag whose [id] is the panel prefix
    followed by anything. An identifier that starts with the prefix is
    not empty, so the guard [x and] of the test refuses a missing
    identifier and nothing else that the prefix would let through. *)
Lemma is_policy_modal_id_iff (n : node) :
  is_policy_modal_id n = true <->
  exists name classes attrs contents suffix,
    n = Tag name classes attrs contents /\
    lookup_attr "id" attrs = Some ("policyModal_" ++ suffix)%string.
Proof.
  unfold is_policy_modal_id. split.
  - destruct n as [cls text|name classes attrs contents]; [discriminate|].
    simpl. destruct (lookup_attr "id" attrs) as [x|] eqn:Ea; [|discriminate].
    intros H. apply andb_true_iff in H as [_ H].
    apply startswith_iff in H as [suffix ->].
    now exists name, classes, attrs, contents, suffix.
  - intros (name & classes & attrs & contents & suffix & -> & Ea).
    simpl. rewrite Ea. apply andb_true_iff. split; [reflexivity|].
    apply startswith_iff. now exists suffix.
Qed.

(** The whole test of [find_next] in line 88. *)
Lemma panel_test_iff (n : node) :
  is_named "template" n && is_policy_modal_id n = true <->
  exists classes attrs contents suffix,
    n = Tag "template" classes attrs contents /\
    lookup_attr "id" attrs = Some ("policyModal_" ++ suffix)%string.
Proof.
  rewrite andb_true_iff, is_policy_modal_id_iff. split.
  - intros [Hname (name & classes & attrs & contents & suffix & -> & Ea)].
    simpl in Hname. apply StrFacts.eqb_eq in Hname. subst name.
    now exists classes, attrs, contents, suffix.
  - intros (classes & attrs & contents & suffix & -> & Ea). split.
    + reflexivity.
    + now exists "template", classes, attrs, contents, suffix.
Qed.

End PanelFacts.

(* ===================================================================== *)
(** ** The properties of the extraction pass *)
(* ===================================================================== *)

Import Soup Dict Exc Parser Samples MoreSamples Spec.
Import DictFacts PyStrFacts BlockFacts LoopFacts SoupFacts PanelFacts.

(** *** Error handling *)

(** C1: a missing sub-element is meant to degrade one field only. The
    pass does not keep to that in two places: on a document whose first
    row segment has no room-type label the loop reads the carried room
    type before anything was assigned to it and the pass ends with
    [UnboundLocalError]; on a row whose quantity selector has no option
    the index of the last option is out of range and the pass ends with
    [IndexError]. Both on the sample documents, and on every document
    whose first row is of that kind. *)
Theorem C1_missing_label_or_options_abort_the_pass :
  extract_room_data doc_unlabelled_first = Raise UnboundLocalError /\
  extract_room_data doc_empty_select = Raise IndexError /\
  (forall soup row rest,
      room_rows soup = row :: rest ->
      select_one row ROOMTYPE_ICON_LINK = None ->
      extract_room_data soup = Raise UnboundLocalError) /\
  (forall soup row rest select_elem,
      room_rows soup = row :: rest ->
      label_text row <> SENTINEL ->
      select_one row NOS_SELECT = Some select_elem ->
      find_all select_elem "option" = [] ->
      extract_room_data soup = Raise IndexError).
Proof.
  split; [vm_compute; reflexivity|]. split; [vm_compute; reflexivity|]. split.
  - intros soup row rest Erows El.
    apply (unlabelled_first_row_raises soup row rest Erows).
    unfold label_text. now rewrite El.
  - intros soup row rest select_elem Erows Hlabel Es Eo.
    unfold extract_room_data. rewrite Erows. cbn [for_rows].
    rewrite (option_less_selector_raises soup row None select_elem);
      [reflexivity| |exact Es|exact Eo].
    unfold carry. now destruct (StrFacts.eqb_spec (label_text row) SENTINEL).
Qed.

(** C2: one record per matched row segment. On a document with two row
    segments, the first of them complete, the option-less selector of the
    second row ends the pass with [IndexError]: no sequence is returned,
    and the record of the first row is lost with it. *)
Theorem C2_failure_in_one_row_loses_every_record :
  length (room_rows doc_second_row_empty_select) = 2 /\
  (exists row rest r current,
      room_rows doc_second_row_empty_select = row :: rest /\
      extract_row doc_second_row_empty_select row None = Return (r, current)) /\
  extract_room_data doc_second_row_empty_select = Raise IndexError.
Proof.
  split; [reflexivity|]. split; [|vm_compute; reflexivity].
  eexists _, _, _, _. split; vm_compute; reflexivity.
Qed.

(** *** The carried room type *)

(** C3, at a row whose label reads as the sentinel: the second row of the
    sample document has a room-type label of its own, whose text is
    "N/A". Its record does not hold that label; it holds the label of the
    row before it. *)
Lemma C3_counterexample :
  nth_error (room_rows doc_sentinel_label) 1 = Some sentinel_label_row /\
  select_one sentinel_label_row ROOMTYPE_ICON_LINK = Some sentinel_label /\
  get_text "" sentinel_label = "N/A" /\
  exists r1 r2,
    extract_room_data doc_sentinel_label = Return [r1; r2] /\
    lookup "room_type" r2 = Some (VStr "Deluxe Suite") /\
    lookup "room_type" r2 <> Some (VStr (get_text "" sentinel_label)).
Proof.
  split; [reflexivity|]. split; [reflexivity|]. split; [reflexivity|].
  eexists _, _. split; [vm_compute; reflexivity|].
  split; [reflexivity|discriminate].
Qed.

(** C3, for labels other than the sentinel: in the sequence a pass
    returns, the room type of every record (the first one included) is a
    value other than the sentinel: the text of the row's own label when
    the row has one that does not read as the sentinel, and otherwise (no
    label, or a label reading as the sentinel) the most recent label
    other than the sentinel among the rows before it. *)
Theorem C3_room_type_is_carried_forward (soup : node) (rooms : list dict) :
  extract_room_data soup = Return rooms ->
  forall (i : nat) (row : element) (r : dict),
    nth_error (room_rows soup) i = Some row ->
    nth_error rooms i = Some r ->
    exists t,
      lookup "room_type" r = Some (VStr t) /\
      t <> SENTINEL /\
      (forall label_elem,
          select_one row ROOMTYPE_ICON_LINK = Some label_elem ->
          get_text "" label_elem <> SENTINEL ->
          t = get_text "" label_elem) /\
      (select_one row ROOMTYPE_ICON_LINK = None ->
       most_recent_label (firstn i (room_rows soup)) = Some t) /\
      (label_text row = SENTINEL ->
       most_recent_label (firstn i (room_rows soup)) = Some t).
Proof.
  intros H i row r Hrow Hr.
  apply for_rows_inv in H as (records & E & _ & Hnth).
  simpl in E. subst records.
  specialize (Hnth i row r Hrow Hr).
  apply row_room_type in Hnth as (t & Hc & _ & Hlookup).
  rewrite fold_carry_most_recent in Hc.
  exists t. split; [exact Hlookup|].
  unfold carry in Hc.
  destruct (StrFacts.eqb_spec (label_text row) SENTINEL) as [Hs|Hs].
  - repeat split.
    + now apply most_recent_label_not_sentinel in Hc.
    + intros label_elem El Ht. unfold label_text in Hs. rewrite El in Hs.
      simpl in Hs. contradiction.
    + intros _. exact Hc.
    + intros _. exact Hc.
  - injection Hc as <-. repeat split.
    + exact Hs.
    + intros label_elem El _. unfold label_text. now rewrite El.
    + intros El. unfold label_text in Hs. rewrite El in Hs. now simpl in Hs.
    + intros Hs'. contradiction.
Qed.

Lemma C3_witness :
  extract_room_data doc_grouped = Return grouped_rooms /\
  nth_error (room_rows doc_grouped) 1 = Some grouped_second_row /\
  exists t,
    lookup "room_type" (nth 1 grouped_rooms empty) = Some (VStr t) /\
    t <> SENTINEL /\
    (forall label_elem,
        select_one grouped_second_row ROOMTYPE_ICON_LINK = Some label_elem ->
        get_text "" label_elem <> SENTINEL ->
        t = get_text "" label_elem) /\
    (select_one grouped_second_row ROOMTYPE_ICON_LINK = None ->
     most_recent_label (firstn 1 (room_rows doc_grouped)) = Some t) /\
    (label_text grouped_second_row = SENTINEL ->
     most_recent_label (firstn 1 (room_rows doc_grouped)) = Some t).
Proof.
  split; [reflexivity|]. split; [reflexivity|].
  apply (C3_room_type_is_carried_forward doc_grouped grouped_rooms);
    reflexivity.
Defined.

(** *** The fields of a record *)

(** C4: every record is meant to hold the same nine fields. The record of
    a row whose quantity selector offers units but whose last option text
    shows no currency marker has eight: [price_per_unit] is never
    assigned on that path. *)
Theorem C4_record_without_price_per_unit :
  extract_room_data doc_no_currency = Return [no_currency_record] /\
  keys no_currency_record = FIELDS_WITHOUT_PRICE_PER_UNIT /\
  keys no_currency_record <> FIELDS /\
  ~ In "price_per_unit" (keys no_currency_record).
Proof.
  split; [reflexivity|]. split; [reflexivity|]. split; [discriminate|].
  simpl. intros H. repeat (destruct H as [H|H]; [discriminate H|]). exact H.
Qed.

(** C5: the price per unit is meant to be the sentinel whenever no price
    is extracted. With the options ["0"; "1"] one unit is available, the
    last option text has no currency marker, and the record holds no
    [price_per_unit] at all, not the sentinel. *)
Theorem C5_price_per_unit_left_unset :
  extract_room_data doc_no_currency = Return [no_currency_record] /\
  lookup "available_units" no_currency_record = Some (VInt 1) /\
  lookup "price_per_unit" no_currency_record = None /\
  lookup "price_per_unit" no_currency_record <> Some (VStr SENTINEL).
Proof. repeat split; try reflexivity. discriminate. Qed.

(** C6, at a row whose quantity selector has no option: the number of
    options minus one is -1 there, which is not an integer greater than
    or equal to 0, and the loop body ends with [IndexError] before any
    record is appended. *)
Lemma C6_counterexample :
  select_one empty_select_row NOS_SELECT = Some empty_select /\
  find_all empty_select "option" = [] /\
  count_units (find_all empty_select "option") = (-1)%Z /\
  units_of empty_select_row = (-1)%Z /\
  ~ (0 <= units_of empty_select_row)%Z /\
  units_block empty_select_row empty = Raise IndexError /\
  extract_row doc_empty_select empty_select_row None = Raise IndexError.
Proof. repeat split; try (vm_compute; reflexivity). vm_compute. congruence. Qed.

(** C6, for selectors that have an option: for every row segment whose
    quantity selector, when present, has at least one option,
    [available_units] is an integer
    greater than or equal to 0: the number of options minus one when a
    selector is present, and 0 when there is none, in which case the
    block stores 0 and the sentinel without looking at any option. The
    unit block returns on such a row, and the record the row yields holds
    that value. *)
Theorem C6_available_units (row : element) :
  (forall select_elem,
      select_one row NOS_SELECT = Some select_elem ->
      find_all select_elem "option" <> []) ->
  (0 <= units_of row)%Z /\
  (forall select_elem,
      select_one row NOS_SELECT = Some select_elem ->
      units_of row = (Z.of_nat (length (find_all select_elem "option")) - 1)%Z) /\
  (select_one row NOS_SELECT = None -> units_of row = 0%Z) /\
  (forall d, exists d',
        units_block row d = Return d' /\
        lookup "available_units" d' = Some (VInt (units_of row))) /\
  (select_one row NOS_SELECT = None ->
   forall d, units_block row d =
             Return (setitem "price_per_unit" (VStr SENTINEL)
                       (setitem "available_units" (VInt 0) d))) /\
  (forall doc current r current',
      extract_row doc row current = Return (r, current') ->
      lookup "available_units" r = Some (VInt (units_of row))).
Proof.
  intros Hsel. unfold units_of.
  destruct (select_one row NOS_SELECT) as [select_elem|] eqn:Es.
  - specialize (Hsel select_elem eq_refl).
    destruct (last_item_cases (find_all select_elem "option"))
      as [[Eo _]|(last_option & _ & El)]; [contradiction|].
    repeat split.
    + unfold count_units. destruct (find_all select_elem "option");
        [congruence|simpl length; lia].
    + intros s [= <-]. reflexivity.
    + discriminate.
    + intros d. rewrite (units_block_options row select_elem last_option d Es El).
      cbv zeta. destruct (0 <? _)%Z.
      * destruct (PyStr.contains _ _).
        -- rewrite option_price_price_of. cbn [bind]. eexists. split; [reflexivity|].
           now rewrite lookup_setitem_neq, lookup_setitem_eq by discriminate.
        -- eexists. split; [reflexivity|]. apply lookup_setitem_eq.
      * eexists. split; [reflexivity|].
        now rewrite lookup_setitem_neq, lookup_setitem_eq by discriminate.
    + discriminate.
    + intros doc current r current' H.
      apply row_units in H as (H & _). unfold units_of in H.
      now rewrite Es in H.
  - repeat split; try discriminate; try lia.
    + intros d. rewrite (units_block_absent row d Es). eexists.
      split; [reflexivity|].
      now rewrite lookup_setitem_neq, lookup_setitem_eq by discriminate.
    + intros _ d. exact (units_block_absent row d Es).
    + intros doc current r current' H.
      apply row_units in H as (H & _). unfold units_of in H.
      now rewrite Es in H.
Qed.

Lemma C6_witness :
  (forall select_elem,
      select_one full_row NOS_SELECT = Some select_elem ->
      find_all select_elem "option" <> []) /\
  units_of full_row = 2%Z /\
  lookup "available_units" full_record = Some (VInt 2).
Proof.
  assert (Hsel : forall select_elem,
             select_one full_row NOS_SELECT = Some select_elem ->
             find_all select_elem "option" <> []).
  { intros select_elem H. vm_compute in H. injection H as <-.
    vm_compute. discriminate. }
  split; [exact Hsel|]. split; [reflexivity|].
  destruct (C6_available_units full_row Hsel) as (_ & _ & _ & _ & _ & H).
  apply (H doc_full None full_record (Some "Deluxe Suite")).
  reflexivity.
Defined.

(** *** Breakfast reconciliation *)

(** The breakfast field of the record a row yields, over the text that
    line 110 reads from the description block: it is the OR of the inline
    signal and of [breakfast in] that text. It is "Yes" whenever the icon
    is the defined green, whatever the panel holds; when the icon says
    no, it is "Yes" exactly when the text read from the block mentions
    breakfast in any letter case, and "No" otherwise; the panel block
    never turns a "Yes" it finds into anything else, for any panel and
    any record; and after the icon block it never raises. *)
Lemma breakfast_is_or_of_the_signals_read (doc : node) (row : element)
  (current : option string) (r : dict) (current' : option string) :
  extract_row doc row current = Return (r, current') ->
  lookup "breakfast_included" r
  = Some (VStr (reconcile (icon_is_green row)
                  (panel_says_breakfast (panel_meals_text doc row)))) /\
  (icon_is_green row = true ->
   lookup "breakfast_included" r = Some (VStr "Yes")) /\
  (forall icon,
      select_one row FOOD_COFFEE = Some icon ->
      get (node_of icon) "fill" = Some "#008009" ->
      lookup "breakfast_included" r = Some (VStr "Yes")) /\
  (icon_is_green row = false ->
   (lookup "breakfast_included" r = Some (VStr "Yes") <->
    exists text, panel_meals_text doc row = Some text /\
                 PyStr.contains "breakfast" (PyStr.lower text) = true) /\
   (lookup "breakfast_included" r = Some (VStr "Yes") \/
    lookup "breakfast_included" r = Some (VStr "No"))) /\
  (forall panel d d',
      lookup "breakfast_included" d = Some (VStr "Yes") ->
      meals_block doc panel d = Return d' ->
      lookup "breakfast_included" d' = Some (VStr "Yes")) /\
  (forall panel d,
      exists d', meals_block doc panel (breakfast_icon_block row d) = Return d').
Proof.
  intros H. apply extract_row_inv in H as (t & d3 & d4 & _ & _ & _ & _ & E5).
  destruct (row_tail doc row d4 r E5) as (_ & Hb & _).
  split; [exact Hb|]. rewrite Hb. clear Hb E5.
  split; [now intros ->|].
  split.
  { intros icon Ei Ef. unfold icon_is_green, get_default. now rewrite Ei, Ef. }
  split.
  - intros ->. unfold reconcile, panel_says_breakfast, mentions_breakfast.
    cbn [orb]. split.
    + split.
      * destruct (panel_meals_text doc row) as [text|]; [|discriminate].
        destruct (PyStr.contains _ _) eqn:E; [|discriminate].
        intros _. now exists text.
      * intros (text & -> & ->). reflexivity.
    + destruct (panel_meals_text doc row) as [text|]; [|now right].
      destruct (PyStr.contains _ _); [now left|now right].
  - split; [|apply meals_block_returns].
    intros panel d d' Hyes Hd.
    destruct (meals_block_effect doc panel d "Yes" Hyes) as (d0 & E & _ & Hb & _).
    rewrite E in Hd. injection Hd as <-. rewrite Hb.
    now rewrite andb_false_r.
Qed.

(** C7: the panel is meant to raise "No" to "Yes" when its meals text
    mentions breakfast. On a row with an icon that is not green, followed
    by its panel in the layout that lines 103 to 108 look for (the Meals
    heading and the description block inside the [template]), the block
    holds the string "Breakfast included for 2", which mentions
    breakfast; the text that line 110 reads from the block is empty, the
    parser keeping the strings below a [template] apart from the text of
    the tags that hold them; and the breakfast field of the record stays
    "No". *)
Theorem C7_panel_inside_template_does_not_upgrade :
  room_rows doc_description_in_template = [template_row] /\
  icon_is_green template_row = false /\
  policy_modal_of doc_description_in_template template_row = Some template_modal /\
  In template_block (descendants_of template_modal) /\
  find_string template_modal "h3" "Meals" = Some template_heading /\
  find_next doc_description_in_template template_heading "div"
    (has_class "bui-list__description") = Some template_block /\
  string_of (node_of template_block) = Some "Breakfast included for 2" /\
  PyStr.contains "breakfast" (PyStr.lower "Breakfast included for 2") = true /\
  get_text "" template_block = "" /\
  PyStr.contains "breakfast" (PyStr.lower (get_text "" template_block)) = false /\
  exists r,
    extract_room_data doc_description_in_template = Return [r] /\
    lookup "breakfast_included" r = Some (VStr "No") /\
    lookup "breakfast_included" r <> Some (VStr "Yes").
Proof.
  split; [reflexivity|]. split; [reflexivity|]. split; [reflexivity|].
  split; [vm_compute; tauto|].
  split; [reflexivity|]. split; [reflexivity|]. split; [reflexivity|].
  split; [reflexivity|]. split; [reflexivity|]. split; [reflexivity|].
  eexists. split; [vm_compute; reflexivity|].
  split; [reflexivity|discriminate].
Qed.

(** *** The detail panel *)

(** The meals field of the record a row yields, over the text that line
    110 reads from the description block: "Not specified" when no detail
    panel is found for the row, "No meals included" when a panel is found
    without a Meals heading, "Not specified" when the heading is found
    and no description block follows it, and otherwise what [get_text]
    gives for the first description block after the heading. Coming
    after the icon block, the panel block never raises. *)
Lemma meals_included_by_cases (doc : node) (row : element)
  (current : option string) (r : dict) (current' : option string) :
  extract_row doc row current = Return (r, current') ->
  (policy_modal_of doc row = None ->
   lookup "meals_included" r = Some (VStr "Not specified")) /\
  (forall modal,
      policy_modal_of doc row = Some modal ->
      find_string modal "h3" "Meals" = None ->
      lookup "meals_included" r = Some (VStr "No meals included")) /\
  (forall modal meals_section,
      policy_modal_of doc row = Some modal ->
      find_string modal "h3" "Meals" = Some meals_section ->
      find_next doc meals_section "div" (has_class "bui-list__description")
      = None ->
      lookup "meals_included" r = Some (VStr "Not specified")) /\
  (forall modal meals_section meals_info,
      policy_modal_of doc row = Some modal ->
      find_string modal "h3" "Meals" = Some meals_section ->
      find_next doc meals_section "div" (has_class "bui-list__description")
      = Some meals_info ->
      lookup "meals_included" r = Some (VStr (get_text "" meals_info))) /\
  (forall panel d,
      exists d', meals_block doc panel (breakfast_icon_block row d) = Return d').
Proof.
  intros H. apply extract_row_inv in H as (t & d3 & d4 & _ & _ & _ & _ & E5).
  destruct (row_tail doc row d4 r E5) as (Hm & _).
  rewrite Hm. unfold meals_field. clear Hm E5.
  split; [now intros ->|].
  split; [now intros modal -> ->|].
  split; [now intros modal meals_section -> -> ->|].
  split; [|apply meals_block_returns].
  now intros modal meals_section meals_info -> -> ->.
Qed.

(** C8: when the panel, its Meals heading and a description block after
    the heading are all found, the meals field is meant to be the text of
    that block. In the layout that lines 103 to 108 look for, the
    description block lies inside the [template] and holds one string,
    "Breakfast included for 2", of the class that the parser gives to
    strings below a [template]. The text that line 110 reads from the
    block leaves that class out: the meals field of the record is the
    empty string, neither the text of the block nor one of the two
    sentinels. *)
Theorem C8_text_inside_template_is_lost :
  room_rows doc_description_in_template = [template_row] /\
  policy_modal_of doc_description_in_template template_row = Some template_modal /\
  find_string template_modal "h3" "Meals" = Some template_heading /\
  find_next doc_description_in_template template_heading "div"
    (has_class "bui-list__description") = Some template_block /\
  node_of template_block
  = Tag "div" ["bui-list__description"] []
        [NavigableString TemplateString "Breakfast included for 2"] /\
  interesting_string_types (node_of template_block) = [Plain; CData] /\
  all_strings [Plain; CData] (node_of template_block) = [] /\
  all_strings [TemplateString] (node_of template_block)
  = ["Breakfast included for 2"] /\
  exists r,
    extract_room_data doc_description_in_template = Return [r] /\
    lookup "meals_included" r = Some (VStr "") /\
    lookup "meals_included" r <> Some (VStr "Breakfast included for 2") /\
    lookup "meals_included" r <> Some (VStr "Not specified") /\
    lookup "meals_included" r <> Some (VStr "No meals included").
Proof.
  split; [reflexivity|]. split; [reflexivity|]. split; [reflexivity|].
  split; [reflexivity|]. split; [reflexivity|]. split; [reflexivity|].
  split; [reflexivity|]. split; [reflexivity|].
  eexists. split; [vm_compute; reflexivity|].
  split; [reflexivity|]. repeat split; discriminate.
Qed.

(** *** The maximum occupancy *)



(** *** Which panel a row uses *)

(** C10, at a document where an element other than a [template] carries
    a panel identifier: after the row come a [div] whose identifier is
    [policyModal_0] and then a [template] whose identifier is
    [policyModal_1]. The first element after the row whose identifier
    starts with the panel prefix is the [div]; the panel that the row
    uses is the [template]. *)
Lemma C10_counterexample :
  room_rows doc_div_before_template = [div_row] /\
  In div_panel (next_elements doc_div_before_template div_row) /\
  get (node_of div_panel) "id" = Some "policyModal_0" /\
  PyStr.startswith "policyModal_0" "policyModal_" = true /\
  first_with_panel_id doc_div_before_template div_row = Some div_panel /\
  position div_panel < position template_after_div /\
  policy_modal_of doc_div_before_template div_row = Some template_after_div /\
  policy_modal_of doc_div_before_template div_row
  <> first_with_panel_id doc_div_before_template div_row.
Proof.
  split; [reflexivity|]. split; [vm_compute; tauto|].
  split; [reflexivity|]. split; [reflexivity|]. split; [reflexivity|].
  split; [vm_compute; lia|]. split; [reflexivity|].
  vm_compute. discriminate.
Qed.

(** C10, for [template] elements: the panel of a row is looked up in the
    whole document after the row, not within the row. The panel that is
    used comes after the row in document order; it is a [template] tag
    whose [id] attribute is the panel prefix followed by some suffix; and
    no element between the row and it is a [template] with such an
    identifier, for any suffix, the empty one included. Without such a
    [template] anywhere after the row there is no panel. The search goes
    through the row's own descendants first and then on through the rest
    of the document. In the sample document the first row holds no panel
    and the second row does: the first row is given the panel of the
    second, so its meals field is that panel's text instead of "Not
    specified" and its breakfast field is raised to "Yes" although its
    own icon is not green. *)
Theorem C10_panel_is_the_next_template_in_the_document :
  (forall doc row modal,
      policy_modal_of doc row = Some modal ->
      position row < position modal /\
      (exists classes attrs contents suffix,
          node_of modal = Tag "template" classes attrs contents /\
          lookup_attr "id" attrs = Some ("policyModal_" ++ suffix)%string) /\
      exists before after,
        next_elements doc row = before ++ modal :: after /\
        forall e classes attrs contents suffix,
          In e before ->
          node_of e = Tag "template" classes attrs contents ->
          lookup_attr "id" attrs <> Some ("policyModal_" ++ suffix)%string) /\
  (forall doc row,
      policy_modal_of doc row = None ->
      forall e classes attrs contents suffix,
        In e (next_elements doc row) ->
        node_of e = Tag "template" classes attrs contents ->
        lookup_attr "id" attrs <> Some ("policyModal_" ++ suffix)%string) /\
  (forall soup row,
      In row (room_rows soup) ->
      exists rest, next_elements soup row = descendants_of row ++ rest) /\
  (room_rows doc_shared_modal = [shared_first_row; shared_second_row] /\
   (forall e, In e (descendants_of shared_first_row) ->
              is_named "template" (node_of e) = false) /\
   In shared_modal (descendants_of shared_second_row) /\
   node_of shared_modal
   = Tag "template" [] [("id", "policyModal_2")] [meals_heading] /\
   policy_modal_of doc_shared_modal shared_first_row = Some shared_modal /\
   policy_modal_of doc_shared_modal shared_second_row = Some shared_modal /\
   icon_is_green shared_first_row = false /\
   exists r1 r2,
     extract_room_data doc_shared_modal = Return [r1; r2] /\
     lookup "meals_included" r1 = Some (VStr "Breakfast included for 2") /\
     lookup "meals_included" r1 <> Some (VStr "Not specified") /\
     lookup "breakfast_included" r1 = Some (VStr "Yes")).
Proof.
  split; [|split; [|split]].
  - intros doc row modal H. unfold policy_modal_of, find_next in H.
    pose proof (find_some _ _ H) as [Hin Htest].
    split; [now apply (next_elements_later doc)|].
    split; [now apply panel_test_iff|].
    apply find_first in H as (before & after & E & _ & Hbefore).
    exists before, after. split; [exact E|].
    intros e classes attrs contents suffix He Hnode Hid.
    specialize (Hbefore e He). cbv beta in Hbefore.
    assert (Ht : is_named "template" (node_of e)
                 && is_policy_modal_id (node_of e) = true).
    { apply panel_test_iff. now exists classes, attrs, contents, suffix. }
    congruence.
  - intros doc row H e classes attrs contents suffix He Hnode Hid.
    unfold policy_modal_of, find_next in H.
    pose proof (find_none _ _ H e He) as Hf. cbv beta in Hf.
    assert (Ht : is_named "template" (node_of e)
                 && is_policy_modal_id (node_of e) = true).
    { apply panel_test_iff. now exists classes, attrs, contents, suffix. }
    congruence.
  - intros soup row Hin.
    now apply next_elements_start_with_descendants, room_rows_in_document.
  - split; [reflexivity|]. split.
    { intros e He. vm_compute in He.
      repeat (destruct He as [<-|He]; [reflexivity|]). contradiction. }
    split; [vm_compute; tauto|]. split; [reflexivity|].
    split; [reflexivity|]. split; [reflexivity|]. split; [reflexivity|].
    eexists _, _. split; [vm_compute; reflexivity|].
    split; [reflexivity|]. split; [discriminate|reflexivity].
Qed.

(* ===================================================================== *)
(** ** The examples of the specification *)
(* ===================================================================== *)

(** Options ["0"; "1 ($100)"; "2 ($6,584)"] give 2 units at 6584. *)
Example price_per_unit_example :
  extract_row doc_full full_row None = Return (full_record, Some "Deluxe Suite") /\
  lookup "available_units" full_record = Some (VInt 2) /\
  lookup "price_per_unit" full_record = Some (VStr "6584").
Proof. repeat split. Qed.

(** A row without a label after a row labelled "Deluxe Suite". *)
Example carried_room_type_example :
  extract_room_data doc_grouped = Return grouped_rooms /\
  label_text grouped_second_row = SENTINEL /\
  lookup "room_type" (nth 1 grouped_rooms empty) = Some (VStr "Deluxe Suite").
Proof. repeat split. Qed.

(** An icon that is not green, and a description block reading
    "Breakfast included for 2" that comes after the [template] of the
    panel, where its text is ordinary text. *)
Example breakfast_upgrade_example :
  icon_is_green full_row = false /\
  lookup "breakfast_included" full_record = Some (VStr "Yes") /\
  lookup "meals_included" full_record = Some (VStr "Breakfast included for 2").
Proof. repeat split. Qed.

(** The text of a description block that lies inside the [template] is
    not text of the block: the meals field is empty and breakfast is not
    raised. *)
Example description_inside_template_example :
  exists r,
    extract_room_data doc_description_in_template = Return [r] /\
    lookup "meals_included" r = Some (VStr EmptyString) /\
    lookup "breakfast_included" r = Some (VStr "No").
Proof. eexists. repeat split. Qed.

(** *** Texts with characters outside ASCII *)

(** No-break spaces around a label and around an occupancy are blanks
    like any other: [Max people:&nbsp;2&nbsp;] gives "2". *)
Example no_break_space_example :
  select_one nbsp_row OCCUPANCY
  = Some (4, occupancy_tag ("Max people:" ++ String NBSP ("2" ++ String NBSP ""))) /\
  exists r,
    extract_room_data doc_nbsp = Return [r] /\
    lookup "room_type" r = Some (VStr "Deluxe Suite") /\
    lookup "max_occupancy" r = Some (VStr "2").
Proof. split; [reflexivity|]. eexists. repeat split. Qed.

(** A first label that reads [&nbsp;N/A&nbsp;] is the sentinel once it is
    stripped, and the pass ends on the unbound room type. *)
Example no_break_space_sentinel_example :
  extract_room_data doc_nbsp_sentinel = Raise UnboundLocalError.
Proof. reflexivity. Qed.

(** The Kelvin sign is a capital letter: a block that spells breakfast
    with it raises the breakfast field. *)
Example kelvin_sign_example :
  PyStr.lower ("BREA" ++ String KELVIN "FAST") = "breakfast" /\
  exists r,
    extract_room_data doc_kelvin = Return [r] /\
    lookup "breakfast_included" r = Some (VStr "Yes").
Proof. split; [reflexivity|]. eexists. repeat split. Qed.

(* ===================================================================== *)
(** ** The loop body in closed form *)
(* ===================================================================== *)

Module RecordFacts.

Import Soup Dict Exc Parser Spec RowRecord.
Import DictFacts PyStrFacts BlockFacts LoopFacts.

(** Two dictionaries with the same keys in the same order, each key once,
    and the same value under every key are the same dictionary. *)
Lemma dict_ext (d1 d2 : dict) :
  keys d1 = keys d2 ->
  NoDup (keys d1) ->
  (forall k, In k (keys d1) -> lookup k d1 = lookup k d2) ->
  d1 = d2.
Proof.
  revert d2. induction d1 as [|[k v] d1 IH]; intros [|[k2 v2] d2];
    simpl; try discriminate; [reflexivity|].
  intros [= <- Hkeys] Hnodup Hlookup. inversion Hnodup as [|? ? Hnotin Hnodup']; subst.
  pose proof (Hlookup k (or_introl eq_refl)) as Hk.
  rewrite StrFacts.eqb_refl in Hk. injection Hk as <-.
  f_equal. apply IH; [exact Hkeys|exact Hnodup'|].
  intros k' Hin. specialize (Hlookup k' (or_intror Hin)).
  destruct (StrFacts.eqb_spec k k') as [->|Hne]; [contradiction|exact Hlookup].
Qed.

Section Row.

Variable doc : node.
Variable row : element.

(** The four fields of lines 50-64 in the record of a row. *)
Lemma row_early_fields (current : option string) (r : dict)
  (current' : option string) :
  extract_row doc row current = Return (r, current') ->
  lookup "description" r
  = Some (VStr (text_or_na " " (select_one row ROOMTYPE_LINK))) /\
  lookup "price" r = Some (VStr (text_or_na "" (select_one row PRICE))) /\
  lookup "cancellation_policy" r
  = Some (VStr (text_or_na "" (select_one row CONDITIONS))) /\
  lookup "max_occupancy" r
  = Some (VStr (PyStr.strip
                  (after_last ":" (text_or_na "" (select_one row OCCUPANCY))))).
Proof.
  intros H. apply extract_row_inv in H as (t & d3 & d4 & _ & _ & E3 & E4 & E5).
  rewrite !(fun k H1 H2 H3 H4 => late_blocks_frame doc row k d3 d4 r H1 H2 H3 H4 E4 E5)
    by discriminate.
  destruct (occupancy_block_returns row
              (scalar_block row (setitem "room_type" (VStr t) empty)))
    as (piece & Hpiece & E3').
  rewrite last_item_split_after_last in Hpiece. injection Hpiece as <-.
  replace d3 with
    (setitem "max_occupancy"
       (VStr (PyStr.strip
                (after_last ":" (text_or_na "" (select_one row OCCUPANCY)))))
       (setitem "max_occupancy"
          (VStr (text_or_na "" (select_one row OCCUPANCY)))
          (scalar_block row (setitem "room_type" (VStr t) empty))))
    by congruence.
  repeat split.
Qed.

Lemma has_options_iff :
  has_options row = true <->
  (forall select_elem, select_one row NOS_SELECT = Some select_elem ->
                       find_all select_elem "option" <> []).
Proof.
  unfold has_options.
  destruct (select_one row NOS_SELECT) as [select_elem|].
  - destruct (find_all select_elem "option") eqn:E; split.
    + discriminate.
    + intros H. now specialize (H select_elem eq_refl).
    + intros _ s [= <-]. now rewrite E.
    + reflexivity.
  - split; [discriminate|reflexivity].
Qed.

Lemma fields_nodup : NoDup FIELDS /\ NoDup FIELDS_WITHOUT_PRICE_PER_UNIT.
Proof.
  split; repeat (constructor; [simpl; intuition discriminate|]); constructor.
Qed.

(** The loop body, as one expression. *)
Lemma extract_row_closed_form (current : option string) :
  extract_row doc row current = row_outcome doc row current.
Proof.
  unfold row_outcome.
  destruct (carry current row) as [t|] eqn:Ec.
  2:{ unfold extract_row. rewrite room_type_block_carry. now rewrite Ec. }
  destruct (has_options row) eqn:Ho.
  - assert (Hret : exists r current', extract_row doc row current = Return (r, current')).
    { apply extract_row_returns_iff. split; [congruence|].
      now apply has_options_iff. }
    destruct Hret as (r & current' & H). rewrite H.
    pose proof (row_room_type doc row current r current' H) as (t' & Ec' & -> & Hrt).
    rewrite Ec in Ec'. injection Ec' as <-.
    pose proof (row_early_fields current r (Some t) H) as (Hd & Hp & Hcp & Hmo).
    pose proof (row_units doc row current r (Some t) H) as (Hau & _ & Hppu & Hkeys).
    apply extract_row_inv in H as (t' & d3 & d4 & _ & _ & _ & _ & E5).
    pose proof (row_tail doc row d4 r E5) as (Hmi & Hbi & _ & _).
    f_equal. f_equal. apply dict_ext.
    + rewrite Hkeys. unfold record_of.
      now destruct (price_per_unit_entry row).
    + rewrite Hkeys. destruct (price_per_unit_entry row); apply fields_nodup.
    + intros k Hin. rewrite Hkeys in Hin. unfold record_of.
      destruct (price_per_unit_entry row) as [v|]; simpl in Hin;
        repeat (destruct Hin as [<-|Hin]; [solve [rewrite ?Hrt, ?Hd, ?Hp, ?Hcp, ?Hmo, ?Hau, ?Hppu, ?Hbi, ?Hmi; reflexivity]|]);
        contradiction.
  - unfold has_options in Ho.
    destruct (select_one row NOS_SELECT) as [select_elem|] eqn:Es; [|discriminate].
    destruct (find_all select_elem "option") eqn:Eo; [|discriminate].
    apply (option_less_selector_raises doc row current select_elem);
      [congruence|exact Es|exact Eo].
Qed.

End Row.

End RecordFacts.

(* ===================================================================== *)
(** ** More facts about the string methods *)
(* ===================================================================== *)

Module StripFacts.

Import PyStr Exc Spec PyStrFacts.

Lemma occurs_lstrip (c : char) (s : string) :
  occurs c (lstrip s) -> occurs c s.
Proof.
  induction s as [|a s IH]; simpl; [tauto|].
  destruct (is_space a); simpl; tauto.
Qed.

Lemma occurs_rstrip (c : char) (s : string) :
  occurs c (rstrip s) -> occurs c s.
Proof.
  induction s as [|a s IH]; simpl; [tauto|].
  destruct (rstrip s) as [|b r].
  - destruct (is_space a); simpl; tauto.
  - simpl in *. tauto.
Qed.

(** Stripping adds no character. *)
Lemma occurs_strip (c : char) (s : string) :
  occurs c (strip s) -> occurs c s.
Proof. intros H. now apply occurs_rstrip, occurs_lstrip. Qed.

Lemma lstrip_idempotent (s : string) : lstrip (lstrip s) = lstrip s.
Proof.
  induction s as [|a s IH]; simpl; [reflexivity|].
  destruct (is_space a) eqn:E; [exact IH|]. simpl. now rewrite E.
Qed.

Lemma rstrip_idempotent (s : string) : rstrip (rstrip s) = rstrip s.
Proof.
  induction s as [|a s IH]; simpl; [reflexivity|].
  destruct (rstrip s) as [|b r] eqn:E.
  - destruct (is_space a) eqn:Ea; simpl; [reflexivity|]. now rewrite Ea.
  - cbn [rstrip]. cbn [rstrip] in IH. now rewrite IH.
Qed.

(** A string without trailing whitespace keeps none when its leading
    whitespace goes. *)
Lemma rstrip_lstrip_fixed (s : string) :
  rstrip s = s -> rstrip (lstrip s) = lstrip s.
Proof.
  induction s as [|a s IH]; simpl; [reflexivity|].
  destruct (is_space a) eqn:Ea.
  - destruct (rstrip s) as [|b r] eqn:E.
    + discriminate.
    + intros [= Hs]. apply IH. exact Hs.
  - intros H. simpl. rewrite Ea. exact H.
Qed.

(** [s.strip().strip() == s.strip()] *)
Lemma strip_idempotent (s : string) : strip (strip s) = strip s.
Proof.
  unfold strip.
  rewrite (rstrip_lstrip_fixed (rstrip s)) by apply rstrip_idempotent.
  apply lstrip_idempotent.
Qed.

Lemma after_last_free (c : char) (s : string) :
  ~ occurs c (after_last c s).
Proof.
  destruct (occurs_dec c s) as [Hin|Hout].
  - destruct (occurs_last c s Hin) as (pre & post & -> & Hno).
    now rewrite after_last_app.
  - now rewrite after_last_no_sep.
Qed.

Lemma occurs_after_last (c d : char) (s : string) :
  occurs d (after_last c s) -> occurs d s.
Proof.
  destruct (occurs_dec c s) as [Hin|Hout].
  - destruct (occurs_last c s Hin) as (pre & post & -> & Hno).
    rewrite after_last_app by assumption. intros H.
    apply occurs_app. right. now right.
  - now rewrite after_last_no_sep.
Qed.

Lemma before_first_free (c : char) (s : string) :
  ~ occurs c (before_first c s).
Proof.
  induction s as [|a s IH]; simpl; [tauto|].
  destruct (N.eqb_spec a c); simpl; tauto.
Qed.

Lemma occurs_before_first (c d : char) (s : string) :
  occurs d (before_first c s) -> occurs d s.
Proof.
  induction s as [|a s IH]; simpl; [tauto|].
  destruct (N.eqb a c); simpl; tauto.
Qed.

Lemma occurs_remove_char (c d : char) (s : string) :
  occurs d (remove_char c s) -> occurs d s.
Proof.
  induction s as [|a s IH]; simpl; [tauto|].
  destruct (N.eqb a c); simpl; tauto.
Qed.

(** The price of an option text holds no currency marker, no comma and no
    closing parenthesis. *)
Lemma price_of_free (text : string) :
  ~ occurs "$" (price_of text) /\
  ~ occurs "," (price_of text) /\
  ~ occurs ")" (price_of text).
Proof.
  unfold price_of. repeat split.
  - intros H. apply occurs_remove_char, occurs_before_first in H.
    now apply after_last_free in H.
  - apply remove_char_no_occurrence.
  - intros H. apply occurs_remove_char in H. now apply before_first_free in H.
Qed.

(** The lower case of a character is never empty. *)
Lemma lower_char_not_empty (c : char) (rest : string) :
  (lower_char c ++ rest)%string <> EmptyString.
Proof.
  unfold lower_char.
  destruct ((65 <=? c) && (c <=? 90))%N; [discriminate|].
  destruct (c =? 8490)%N; [discriminate|].
  destruct (c =? 304)%N; discriminate.
Qed.

(** Lower-casing changes letters only: a character outside [a] to [z] in
    a lower-cased text stands for itself. *)
Lemma lower_char_fixed (c d : char) (rest rest' : string) :
  (lower_char c ++ rest)%string = String d rest' ->
  (d < 97 \/ 122 < d)%N ->
  c = d /\ rest = rest'.
Proof.
  unfold lower_char. intros H Hd.
  destruct ((65 <=? c) && (c <=? 90))%N eqn:E.
  { apply andb_true_iff in E as [E1 E2].
    apply N.leb_le in E1, E2. injection H as H _. lia. }
  destruct (c =? 8490)%N; [injection H as H _; lia|].
  destruct (c =? 304)%N; [injection H as H _; lia|].
  now injection H as -> ->.
Qed.

(** [fill.lower() == '#008009'] holds for that very string only: it has
    no letter. *)
Lemma lower_is_green (s : string) :
  lower s = "#008009" <-> s = "#008009".
Proof.
  split; [|now intros ->].
  intros H.
  repeat (destruct s as [|? s]; [discriminate H|];
          cbn [lower] in H;
          apply lower_char_fixed in H as [-> H]; [|left; reflexivity]).
  destruct s as [|c s]; [reflexivity|].
  cbn [lower] in H. now apply lower_char_not_empty in H.
Qed.

End StripFacts.

(* ===================================================================== *)
(** ** The pass in closed form *)
(* ===================================================================== *)

Module PassFacts.

Import Soup Dict Exc Parser Spec RowRecord.
Import DictFacts PyStrFacts BlockFacts LoopFacts RecordFacts.

Lemma carry_some (c : string) (row : element) : carry (Some c) row <> None.
Proof. unfold carry. now destruct (Str.eqb _ _). Qed.

(** The loop from a point where the next row has a room type. *)
Lemma for_rows_closed_form (doc : node) (rows : list element) :
  forall (current : option string) (rooms : list dict),
    (forall row rest, rows = row :: rest -> carry current row <> None) ->
    for_rows doc rows current rooms =
    if forallb has_options rows
    then Return (rooms ++ records_from doc current rows)
    else Raise IndexError.
Proof.
  induction rows as [|row rows IH]; intros current rooms Hc.
  - simpl. now rewrite app_nil_r.
  - cbn [for_rows forallb records_from].
    rewrite extract_row_closed_form. unfold row_outcome.
    destruct (carry current row) as [t|] eqn:Ec;
      [|now specialize (Hc row rows eq_refl)].
    destruct (has_options row); cbn [bind andb]; [|reflexivity].
    rewrite IH by (intros row' rest _; apply carry_some).
    now rewrite <- app_assoc.
Qed.

(** The whole pass, as one expression. *)
Lemma extract_room_data_closed_form (soup : node) :
  extract_room_data soup = pass_outcome soup.
Proof.
  unfold pass_outcome.
  destruct (room_rows soup) as [|row rest] eqn:Erows.
  - unfold extract_room_data. now rewrite Erows.
  - destruct (StrFacts.eqb_spec (label_text row) SENTINEL) as [Hs|Hs].
    + now apply (unlabelled_first_row_raises soup row rest).
    + unfold extract_room_data. rewrite Erows.
      rewrite for_rows_closed_form; [reflexivity|].
      intros row' rest' [= <- <-]. unfold carry.
      now destruct (StrFacts.eqb_spec (label_text row) SENTINEL).
Qed.

(** The carried room type along the rows is the most recent label. *)
Lemma records_from_nth (doc : node) (rows : list element) :
  forall (current : option string) (i : nat) (row : element) (r : dict),
    nth_error rows i = Some row ->
    nth_error (records_from doc current rows) i = Some r ->
    exists t,
      fold_left carry (firstn (S i) rows) current = Some t /\
      r = record_of doc row t.
Proof.
  induction rows as [|row0 rows IH]; intros current i row r Hrow Hr;
    [now destruct i|].
  cbn [records_from] in Hr.
  destruct (carry current row0) as [t0|] eqn:Ec; [|now destruct i].
  destruct i as [|i].
  - injection Hrow as <-. injection Hr as <-. exists t0. simpl. now rewrite Ec.
  - simpl in Hrow, Hr. destruct (IH (Some t0) i row r Hrow Hr) as (t & Ht & ->).
    exists t. cbn [firstn fold_left]. rewrite Ec. now split.
Qed.

(** Every record of a completed pass is the record of its row, with the
    most recent label up to that row as room type. *)
Lemma pass_records (soup : node) (rooms : list dict) :
  extract_room_data soup = Return rooms ->
  length rooms = length (room_rows soup) /\
  forall i row r,
    nth_error (room_rows soup) i = Some row ->
    nth_error rooms i = Some r ->
    exists t,
      most_recent_label (firstn (S i) (room_rows soup)) = Some t /\
      r = record_of soup row t.
Proof.
  intros H. split; [now apply extract_room_data_length|].
  rewrite extract_room_data_closed_form in H. unfold pass_outcome in H.
  destruct (room_rows soup) as [|row0 rest] eqn:Erows.
  - intros [|i] row r; discriminate.
  - destruct (Str.eqb (label_text row0) SENTINEL); [discriminate|].
    destruct (forallb has_options (row0 :: rest)); [|discriminate].
    injection H as <-. intros i row r Hrow Hr.
    destruct (records_from_nth soup (row0 :: rest) None i row r Hrow Hr)
      as (t & Ht & ->).
    exists t. now rewrite <- fold_carry_most_recent.
Qed.

(** The same, for a record taken anywhere in the sequence. *)
Lemma pass_record_in (soup : node) (rooms : list dict) (r : dict) :
  extract_room_data soup = Return rooms ->
  In r rooms ->
  exists row t,
    In row (room_rows soup) /\ t <> SENTINEL /\ has_options row = true /\
    r = record_of soup row t.
Proof.
  intros H Hin. pose proof (pass_records soup rooms H) as [Hlen Hnth].
  apply In_nth_error in Hin as [i Hi].
  destruct (nth_error (room_rows soup) i) as [row|] eqn:Erow.
  - destruct (Hnth i row r Erow Hi) as (t & Ht & ->).
    exists row, t. repeat split.
    + eapply nth_error_In. exact Erow.
    + now apply most_recent_label_not_sentinel in Ht.
    + assert (Hret : exists rooms, extract_room_data soup = Return rooms)
        by now exists rooms.
      apply extract_room_data_returns_iff in Hret as [_ Hsel].
      apply has_options_iff. intros select_elem.
      apply Hsel. eapply nth_error_In. exact Erow.
  - apply nth_error_None in Erow.
    assert (i < length rooms) by (apply nth_error_Some; congruence). lia.
Qed.

End PassFacts.

(* ===================================================================== *)
(** ** Facts about selection order, records and tables *)
(* ===================================================================== *)

Module ShapeFacts.

Import Soup Dict Exc Parser Spec RowRecord Loader Table.
Import DictFacts PyStrFacts BlockFacts LoopFacts SoupFacts RecordFacts PassFacts.

(** The keys of the record of a row. *)
Lemma record_of_keys (doc : node) (row : element) (t : string) :
  lookup "price_per_unit" (record_of doc row t) = price_per_unit_entry row /\
  keys (record_of doc row t) =
  match price_per_unit_entry row with
  | Some _ => FIELDS
  | None => FIELDS_WITHOUT_PRICE_PER_UNIT
  end.
Proof.
  unfold record_of. now destruct (price_per_unit_entry row).
Qed.

Lemma record_keys_cases (r : dict) :
  keys r = FIELDS \/ keys r = FIELDS_WITHOUT_PRICE_PER_UNIT ->
  (lookup "price_per_unit" r <> None -> keys r = FIELDS) /\
  (lookup "price_per_unit" r = None -> keys r = FIELDS_WITHOUT_PRICE_PER_UNIT).
Proof.
  intros [H|H]; split; intros Hl; try exact H.
  - apply lookup_none_keys in Hl. rewrite H in Hl. exfalso. apply Hl.
    simpl. tauto.
  - exfalso. apply Hl. apply lookup_none_keys. rewrite H. simpl.
    intuition discriminate.
Qed.

Lemma pass_record_keys (soup : node) (rooms : list dict) :
  extract_room_data soup = Return rooms ->
  Forall (fun r => keys r = FIELDS \/ keys r = FIELDS_WITHOUT_PRICE_PER_UNIT) rooms.
Proof.
  intros H. apply Forall_forall. intros r Hin.
  destruct (pass_record_in soup rooms r H Hin) as (row & t & _ & _ & _ & ->).
  destruct (record_of_keys soup row t) as [_ ->].
  destruct (price_per_unit_entry row); [now left|now right].
Qed.

(** How the columns grow, record by record. *)
Lemma columns_fold_full (records : list dict) (cols : list string) :
  Forall (fun r => keys r = FIELDS \/ keys r = FIELDS_WITHOUT_PRICE_PER_UNIT) records ->
  cols = FIELDS \/ cols = FIELDS_WITHOUT_PRICE_PER_UNIT ++ ["price_per_unit"] ->
  fold_left (fun cols r => add_columns cols (keys r)) records cols = cols.
Proof.
  intros Hall. revert cols.
  induction Hall as [|r records Hr _ IH]; intros cols Hcols; [reflexivity|].
  simpl. replace (add_columns cols (keys r)) with cols; [now apply IH|].
  destruct Hcols as [->| ->], Hr as [->| ->]; reflexivity.
Qed.

Lemma columns_fold_without (records : list dict) :
  Forall (fun r => keys r = FIELDS \/ keys r = FIELDS_WITHOUT_PRICE_PER_UNIT) records ->
  ((exists r, In r records /\ lookup "price_per_unit" r <> None) ->
   fold_left (fun cols r => add_columns cols (keys r)) records
             FIELDS_WITHOUT_PRICE_PER_UNIT
   = FIELDS_WITHOUT_PRICE_PER_UNIT ++ ["price_per_unit"]) /\
  ((forall r, In r records -> lookup "price_per_unit" r = None) ->
   fold_left (fun cols r => add_columns cols (keys r)) records
             FIELDS_WITHOUT_PRICE_PER_UNIT
   = FIELDS_WITHOUT_PRICE_PER_UNIT).
Proof.
  induction 1 as [|r records Hr Hall [IH1 IH2]].
  - split; [now intros (r & [] & _)|reflexivity].
  - destruct (record_keys_cases r Hr) as [Hfull Hwithout]. simpl.
    destruct (lookup "price_per_unit" r) as [v|] eqn:El.
    + rewrite Hfull by discriminate. split.
      * intros _. now apply columns_fold_full; [|right].
      * intros Hnone. specialize (Hnone r (or_introl eq_refl)). congruence.
    + rewrite Hwithout by reflexivity. split.
      * intros (r' & [<-|Hin] & Hr'); [congruence|]. apply IH1. now exists r'.
      * intros Hnone. apply IH2. intros r' Hin. apply Hnone. now right.
Qed.

End ShapeFacts.

(* ===================================================================== *)
(** ** Further properties of the parser *)
(* ===================================================================== *)

Import RowRecord Loader Table MoreSamples.
Import RecordFacts StripFacts PassFacts ShapeFacts.

(** *** How a pass ends *)

(** X1: a pass ends in one of three ways, decided by the row segments
    alone. Without row segments it returns the empty list. Otherwise it
    raises [UnboundLocalError] when the first row segment has no label
    (or one that reads as the sentinel once it is stripped, as
    [&nbsp;N/A&nbsp;] does); else it raises [IndexError] when some row
    segment has a quantity selector without options; else it returns. It
    raises nothing else. *)
Theorem X1_how_a_pass_ends :
  (forall soup : node,
      match room_rows soup with
      | [] => extract_room_data soup = Return []
      | row :: _ =>
          if Str.eqb (label_text row) SENTINEL
          then extract_room_data soup = Raise UnboundLocalError
          else if forallb has_options (room_rows soup)
               then exists rooms, extract_room_data soup = Return rooms
               else extract_room_data soup = Raise IndexError
      end) /\
  (exists row,
      room_rows doc_nbsp_sentinel = [row] /\
      select_one row ROOMTYPE_ICON_LINK
      = Some (2, label_tag (String NBSP ("N/A" ++ String NBSP ""))) /\
      label_text row = SENTINEL /\
      extract_room_data doc_nbsp_sentinel = Raise UnboundLocalError).
Proof.
  split.
  - intros soup. rewrite extract_room_data_closed_form. unfold pass_outcome.
    destruct (room_rows soup) as [|row rest]; [reflexivity|].
    destruct (Str.eqb (label_text row) SENTINEL); [reflexivity|].
    destruct (forallb has_options (row :: rest)); [now eexists|reflexivity].
  - eexists. repeat split.
Qed.

(** *** The record of a row *)

(** X3: the loop body is a function of the row, the carried room type and
    the panel found after the row. It raises [UnboundLocalError] when
    neither the row nor the carried state gives a room type; else it
    raises [IndexError] when the quantity selector of the row has no
    option; else it returns the record with the fields in the fixed
    order, [price_per_unit] being left out when units are available and
    the last option shows no currency marker, and it carries the room
    type on. *)
Theorem X3_loop_body_in_closed_form (doc : node) (row : element)
  (current : option string) :
  extract_row doc row current =
  match carry current row with
  | None => Raise UnboundLocalError
  | Some room_type =>
      if has_options row
      then Return (record_of doc row room_type, Some room_type)
      else Raise IndexError
  end.
Proof. apply extract_row_closed_form. Qed.

(** X4: a completed pass returns one record per row segment, in the order
    of the row segments, and the record at each place is the record of
    the row segment at that place, with the most recent label up to and
    including that row as room type. *)
Theorem X4_records_of_a_completed_pass (soup : node) (rooms : list dict) :
  extract_room_data soup = Return rooms ->
  length rooms = length (room_rows soup) /\
  forall i row,
    nth_error (room_rows soup) i = Some row ->
    exists t,
      most_recent_label (firstn (S i) (room_rows soup)) = Some t /\
      nth_error rooms i = Some (record_of soup row t).
Proof.
  intros H. pose proof (pass_records soup rooms H) as [Hlen Hnth].
  split; [exact Hlen|]. intros i row Hrow.
  destruct (nth_error rooms i) as [r|] eqn:Er.
  - destruct (Hnth i row r Hrow Er) as (t & Ht & ->). now exists t.
  - apply nth_error_None in Er.
    assert (i < length (room_rows soup)) by (apply nth_error_Some; congruence).
    lia.
Qed.

Lemma X4_witness :
  (extract_room_data doc_grouped = Return grouped_rooms /\
   length grouped_rooms = 2 /\
   nth_error grouped_rooms 1
   = Some (record_of doc_grouped grouped_second_row "Deluxe Suite")) /\
  (extract_room_data doc_nbsp = Return [nbsp_record] /\
   nth_error [nbsp_record] 0
   = Some (record_of doc_nbsp nbsp_row "Deluxe Suite")).
Proof.
  split.
  - split; [reflexivity|]. split; [reflexivity|].
    destruct (X4_records_of_a_completed_pass doc_grouped grouped_rooms eq_refl)
      as [_ H].
    destruct (H 1 grouped_second_row eq_refl) as (t & Ht & Hr).
    vm_compute in Ht. injection Ht as <-. exact Hr.
  - split; [reflexivity|].
    destruct (X4_records_of_a_completed_pass doc_nbsp [nbsp_record] eq_refl)
      as [_ H].
    destruct (H 0 nbsp_row eq_refl) as (t & Ht & Hr).
    vm_compute in Ht. injection Ht as <-. exact Hr.
Defined.

(** X5: in a completed pass every record holds the eight fields other
    than [price_per_unit], always in the same order, and
    [price_per_unit] either in its place before [breakfast_included] or
    not at all. It is missing exactly for the row segments that have
    units available and whose last option text holds no currency
    marker. *)
Theorem X5_keys_of_a_record (soup : node) (rooms : list dict) :
  extract_room_data soup = Return rooms ->
  forall i row r,
    nth_error (room_rows soup) i = Some row ->
    nth_error rooms i = Some r ->
    (keys r = FIELDS \/ keys r = FIELDS_WITHOUT_PRICE_PER_UNIT) /\
    (forall k, In k FIELDS_WITHOUT_PRICE_PER_UNIT -> lookup k r <> None) /\
    (keys r = FIELDS_WITHOUT_PRICE_PER_UNIT <->
     (0 < units_of row)%Z /\
     exists option_text,
       last_option_text row = Some option_text /\
       PyStr.contains "$" option_text = false).
Proof.
  intros H i row r Hrow Hr.
  destruct (pass_records soup rooms H) as [_ Hnth].
  destruct (Hnth i row r Hrow Hr) as (t & _ & ->).
  destruct (record_of_keys soup row t) as [_ Hkeys]. rewrite Hkeys.
  split; [|split].
  - destruct (price_per_unit_entry row); [now left|now right].
  - intros k Hin Hnone. apply lookup_none_keys in Hnone. apply Hnone.
    rewrite Hkeys. destruct (price_per_unit_entry row); simpl in *; tauto.
  - unfold price_per_unit_entry.
    destruct (last_option_text row) as [option_text|].
    + destruct (Z.ltb_spec 0 (units_of row)) as [Hpos|Hneg].
      * destruct (PyStr.contains "$" option_text) eqn:Ec.
        -- split; [discriminate|]. intros (_ & text & [= <-] & Hc). congruence.
        -- split; [|reflexivity]. intros _. split; [exact Hpos|].
           now exists option_text.
      * split; [discriminate|]. intros [Hpos _]. lia.
    + split; [discriminate|]. intros (_ & text & Ht & _). discriminate.
Qed.

Lemma X5_witness :
  extract_room_data doc_no_currency = Return [no_currency_record] /\
  keys no_currency_record = FIELDS_WITHOUT_PRICE_PER_UNIT /\
  (0 < units_of no_currency_row)%Z.
Proof.
  split; [reflexivity|]. split; [reflexivity|].
  destruct (X5_keys_of_a_record doc_no_currency [no_currency_record] eq_refl 0
              no_currency_row no_currency_record eq_refl eq_refl)
    as (_ & _ & [H _]).
  exact (proj1 (H eq_refl)).
Defined.

(** X6: in a completed pass the number of available units of every
    record is an integer that is not negative, and a record with no
    available unit has the sentinel as price per unit. *)
Theorem X6_no_unit_no_price (soup : node) (rooms : list dict) (r : dict) :
  extract_room_data soup = Return rooms ->
  In r rooms ->
  exists u,
    lookup "available_units" r = Some (VInt u) /\
    (0 <= u)%Z /\
    (u = 0%Z -> lookup "price_per_unit" r = Some (VStr SENTINEL)).
Proof.
  intros H Hin.
  destruct (pass_record_in soup rooms r H Hin) as (row & t & _ & _ & Ho & ->).
  exists (units_of row). split; [|split].
  - unfold record_of. now destruct (price_per_unit_entry row).
  - unfold has_options in Ho. unfold units_of, count_units.
    destruct (select_one row NOS_SELECT) as [select_elem|]; [|lia].
    destruct (find_all select_elem "option"); [discriminate|simpl length; lia].
  - intros Hu. destruct (record_of_keys soup row t) as [-> _].
    unfold price_per_unit_entry. rewrite Hu.
    now destruct (last_option_text row).
Qed.

Lemma X6_witness :
  extract_room_data doc_grouped = Return grouped_rooms /\
  exists u,
    lookup "available_units" (nth 1 grouped_rooms empty) = Some (VInt u) /\
    (0 <= u)%Z /\
    (u = 0%Z ->
     lookup "price_per_unit" (nth 1 grouped_rooms empty) = Some (VStr SENTINEL)).
Proof.
  split; [reflexivity|].
  apply (X6_no_unit_no_price doc_grouped grouped_rooms); [reflexivity|].
  simpl. tauto.
Defined.

(** X7: in a completed pass a price per unit, when the record has one,
    is a string without currency marker, comma or closing parenthesis. *)
Theorem X7_price_per_unit_has_no_separator (soup : node) (rooms : list dict)
  (r : dict) (v : value) :
  extract_room_data soup = Return rooms ->
  In r rooms ->
  lookup "price_per_unit" r = Some v ->
  exists price,
    v = VStr price /\
    ~ PyStr.occurs "$" price /\
    ~ PyStr.occurs "," price /\
    ~ PyStr.occurs ")" price.
Proof.
  intros H Hin Hv.
  destruct (pass_record_in soup rooms r H Hin) as (row & t & _ & _ & _ & ->).
  destruct (record_of_keys soup row t) as [Hppu _]. rewrite Hppu in Hv.
  unfold price_per_unit_entry in Hv.
  assert (Hsentinel : ~ PyStr.occurs "$" SENTINEL /\ ~ PyStr.occurs "," SENTINEL
                      /\ ~ PyStr.occurs ")" SENTINEL).
  { simpl. repeat split; intros Hs; intuition discriminate. }
  destruct (last_option_text row) as [option_text|].
  - destruct (0 <? units_of row)%Z.
    + destruct (PyStr.contains "$" option_text); [|discriminate].
      injection Hv as <-. exists (price_of option_text).
      split; [reflexivity|apply price_of_free].
    + injection Hv as <-. now exists SENTINEL.
  - injection Hv as <-. now exists SENTINEL.
Qed.

Lemma X7_witness :
  extract_room_data doc_full = Return [full_record] /\
  lookup "price_per_unit" full_record = Some (VStr "6584") /\
  exists price,
    VStr "6584" = VStr price /\
    ~ PyStr.occurs "$" price /\ ~ PyStr.occurs "," price /\ ~ PyStr.occurs ")" price.
Proof.
  split; [reflexivity|]. split; [reflexivity|].
  apply (X7_price_per_unit_has_no_separator doc_full [full_record] full_record);
    [reflexivity|simpl; tauto|reflexivity].
Defined.

(** X8: in a completed pass the maximum occupancy of every record is a
    string without colon and without leading or trailing whitespace. *)
Theorem X8_max_occupancy_is_trimmed (soup : node) (rooms : list dict)
  (r : dict) :
  extract_room_data soup = Return rooms ->
  In r rooms ->
  exists m,
    lookup "max_occupancy" r = Some (VStr m) /\
    ~ PyStr.occurs ":" m /\
    PyStr.strip m = m.
Proof.
  intros H Hin.
  destruct (pass_record_in soup rooms r H Hin) as (row & t & _ & _ & _ & ->).
  eexists. split; [reflexivity|]. split.
  - intros Hc. apply occurs_strip in Hc. now apply after_last_free in Hc.
  - apply strip_idempotent.
Qed.

Lemma X8_witness :
  extract_room_data doc_full = Return [full_record] /\
  exists m,
    lookup "max_occupancy" full_record = Some (VStr m) /\
    ~ PyStr.occurs ":" m /\
    PyStr.strip m = m.
Proof.
  split; [reflexivity|].
  apply (X8_max_occupancy_is_trimmed doc_full [full_record] full_record);
    [reflexivity|simpl; tauto].
Defined.

(** *** Edge cases of the room type *)

(** X9: a label element without any text (none at all, or blanks only,
    no-break spaces included) is a label all the same. Its
    row gets the empty string as room type, whatever was carried, and the
    empty string is what the rows after it inherit. *)
Theorem X9_blank_label_resets_the_room_type (doc : node) (row : element)
  (current : option string) (label_elem : element) :
  select_one row ROOMTYPE_ICON_LINK = Some label_elem ->
  stripped_strings (node_of label_elem) = [] ->
  has_options row = true ->
  extract_row doc row current
  = Return (record_of doc row EmptyString, Some EmptyString).
Proof.
  intros El Hs Ho. rewrite extract_row_closed_form. unfold row_outcome.
  assert (carry current row = Some EmptyString) as ->; [|now rewrite Ho].
  unfold carry, label_text. rewrite El. cbn [text_or_na].
  unfold get_text. now rewrite Hs.
Qed.

Lemma X9_witness :
  select_one blank_label_row ROOMTYPE_ICON_LINK = Some blank_label /\
  extract_row doc_blank_label blank_label_row (Some "Deluxe Suite")
  = Return (record_of doc_blank_label blank_label_row EmptyString,
            Some EmptyString) /\
  (exists rooms,
      extract_room_data doc_blank_label = Return rooms /\
      map (lookup "room_type") rooms
      = [Some (VStr "Deluxe Suite"); Some (VStr EmptyString);
         Some (VStr EmptyString)]) /\
  select_one nbsp_blank_label_row ROOMTYPE_ICON_LINK = Some nbsp_blank_label /\
  stripped_strings (node_of nbsp_blank_label) = [] /\
  extract_row doc_nbsp_blank_label nbsp_blank_label_row (Some "Deluxe Suite")
  = Return (record_of doc_nbsp_blank_label nbsp_blank_label_row EmptyString,
            Some EmptyString).
Proof.
  split; [reflexivity|]. split.
  - apply (X9_blank_label_resets_the_room_type doc_blank_label blank_label_row
             (Some "Deluxe Suite") blank_label); reflexivity.
  - split; [eexists; split; [vm_compute; reflexivity|reflexivity]|].
    split; [reflexivity|]. split; [reflexivity|].
    apply (X9_blank_label_resets_the_room_type doc_nbsp_blank_label
             nbsp_blank_label_row (Some "Deluxe Suite") nbsp_blank_label);
      reflexivity.
Defined.

(** *** The two breakfast signals *)

(** X10: the icon block says "Yes" exactly when the row has a breakfast
    icon whose [fill] attribute is the string [#008009], character for
    character: the colour holds no letter, so lower-casing the attribute
    lets no other value through, and an icon without the attribute says
    "No". *)
Theorem X10_icon_test_is_exact (row : element) (d : dict) :
  lookup "breakfast_included" (breakfast_icon_block row d) = Some (VStr "Yes") <->
  exists icon,
    select_one row FOOD_COFFEE = Some icon /\
    get (node_of icon) "fill" = Some "#008009".
Proof.
  rewrite breakfast_icon_block_signal, lookup_setitem_eq.
  unfold reconcile, icon_is_green. rewrite orb_false_r.
  destruct (select_one row FOOD_COFFEE) as [icon|].
  - destruct (StrFacts.eqb_spec
                (PyStr.lower (get_default (node_of icon) "fill" "")) "#008009")
      as [Hg|Hg].
    + apply (proj1 (lower_is_green _)) in Hg. split; [|reflexivity]. intros _.
      exists icon. split; [reflexivity|]. unfold get_default in Hg.
      revert Hg. destruct (get (node_of icon) "fill") as [v|]; intros Hg;
        [now subst|discriminate Hg].
    + split; [discriminate|]. intros (icon' & [= <-] & Hf). exfalso. apply Hg.
      unfold get_default. now rewrite Hf.
  - split; [discriminate|]. now intros (icon & ? & _).
Qed.

(** X11: the test that line 88 makes on the identifier accepts a node
    exactly when it is a tag whose [id] attribute is the prefix
    [policyModal_] followed by anything, the empty suffix included. The
    guard [x and] of the test refuses a tag without identifier and the
    empty identifier, which do not start with the prefix either, and
    nothing else. Hence the panel of a row is a [template] tag with such
    an identifier, and a [template] tag with such an identifier anywhere
    after the row gives the row a panel; so does the one whose identifier
    is the bare prefix. *)
Theorem X11_panel_is_a_template_with_the_prefix :
  (forall n,
      is_policy_modal_id n = true <->
      exists name classes attrs contents suffix,
        n = Tag name classes attrs contents /\
        lookup_attr "id" attrs = Some ("policyModal_" ++ suffix)%string) /\
  (forall name classes attrs contents,
      lookup_attr "id" attrs = Some "policyModal_" ->
      is_policy_modal_id (Tag name classes attrs contents) = true) /\
  (forall name classes attrs contents,
      lookup_attr "id" attrs = None \/ lookup_attr "id" attrs = Some "" ->
      is_policy_modal_id (Tag name classes attrs contents) = false) /\
  (forall doc row modal,
      policy_modal_of doc row = Some modal ->
      exists classes attrs contents suffix,
        node_of modal = Tag "template" classes attrs contents /\
        lookup_attr "id" attrs = Some ("policyModal_" ++ suffix)%string) /\
  (forall doc row e classes attrs contents suffix,
      In e (next_elements doc row) ->
      node_of e = Tag "template" classes attrs contents ->
      lookup_attr "id" attrs = Some ("policyModal_" ++ suffix)%string ->
      exists modal, policy_modal_of doc row = Some modal) /\
  policy_modal_of doc_bare_prefix bare_prefix_row = Some bare_prefix_modal.
Proof.
  split; [exact is_policy_modal_id_iff|].
  split.
  { intros name classes attrs contents Ea. apply is_policy_modal_id_iff.
    exists name, classes, attrs, contents, EmptyString. now rewrite Ea. }
  split.
  { intros name classes attrs contents [Ea|Ea];
      unfold is_policy_modal_id; simpl; now rewrite Ea. }
  split.
  { intros doc row modal H. unfold policy_modal_of, find_next in H.
    apply find_some in H as [_ H]. now apply panel_test_iff. }
  split; [|reflexivity].
  intros doc row e classes attrs contents suffix He Hnode Hid.
  destruct (policy_modal_of doc row) as [modal|] eqn:E; [now exists modal|].
  unfold policy_modal_of, find_next in E.
  pose proof (find_none _ _ E e He) as Hf. cbv beta in Hf.
  assert (Ht : is_named "template" (node_of e)
               && is_policy_modal_id (node_of e) = true).
  { apply panel_test_iff. now exists classes, attrs, contents, suffix. }
  congruence.
Qed.



(** *** What a record depends on *)

(** X13: the record of a row depends on the carried room type through
    [room_type] only, and on the rest of the document through
    [breakfast_included] and [meals_included] only. Two records of the
    same row have the same keys and agree on every other field, whatever
    the documents around the row and whatever was carried; within one
    document they agree on every field but [room_type]. *)
Theorem X13_fields_are_local_to_the_row (doc1 doc2 : node) (row : element)
  (current1 current2 : option string) (r1 r2 : dict)
  (next1 next2 : option string) :
  extract_row doc1 row current1 = Return (r1, next1) ->
  extract_row doc2 row current2 = Return (r2, next2) ->
  keys r1 = keys r2 /\
  (forall k, k <> "room_type" -> k <> "breakfast_included" ->
             k <> "meals_included" -> lookup k r1 = lookup k r2) /\
  (doc1 = doc2 -> forall k, k <> "room_type" -> lookup k r1 = lookup k r2) /\
  (carry current1 row = carry current2 row ->
   lookup "room_type" r1 = lookup "room_type" r2).
Proof.
  rewrite !extract_row_closed_form. unfold row_outcome.
  destruct (carry current1 row) as [t1|]; [|discriminate].
  destruct (carry current2 row) as [t2|]; [|discriminate].
  destruct (has_options row); [|discriminate].
  intros [= <- _] [= <- _].
  split; [|split; [|split]].
  - destruct (record_of_keys doc1 row t1) as [_ ->].
    now destruct (record_of_keys doc2 row t2) as [_ ->].
  - intros k H1 H2 H3. unfold record_of.
    destruct (price_per_unit_entry row); cbn [app lookup];
      repeat match goal with
             | |- context [Str.eqb ?a k] =>
                 destruct (StrFacts.eqb_spec a k); [congruence|]
             end; reflexivity.
  - intros <- k H1. unfold record_of.
    destruct (price_per_unit_entry row); cbn [app lookup];
      repeat match goal with
             | |- context [Str.eqb ?a k] =>
                 destruct (StrFacts.eqb_spec a k); [congruence|]
             end; reflexivity.
  - intros [= <-]. reflexivity.
Qed.

Lemma X13_witness :
  extract_row doc_full full_row None
  = Return (full_record, Some "Deluxe Suite") /\
  extract_row doc_full_row_alone full_row (Some "Standard Room")
  = Return (record_of doc_full_row_alone full_row "Deluxe Suite",
            Some "Deluxe Suite") /\
  lookup "price_per_unit" full_record
  = lookup "price_per_unit"
      (record_of doc_full_row_alone full_row "Deluxe Suite") /\
  lookup "meals_included" (record_of doc_full_row_alone full_row "Deluxe Suite")
  = Some (VStr "Not specified").
Proof.
  split; [reflexivity|]. split; [reflexivity|]. split; [|reflexivity].
  destruct (X13_fields_are_local_to_the_row doc_full doc_full_row_alone full_row
              None (Some "Standard Room") full_record
              (record_of doc_full_row_alone full_row "Deluxe Suite")
              (Some "Deluxe Suite") (Some "Deluxe Suite") eq_refl eq_refl)
    as (_ & H & _).
  apply H; discriminate.
Defined.

(** *** The parser object *)

(** X14: the file is read at most once. After a call of
    [extract_room_data] that did not fail to load, the object holds a
    tree, and every later call leaves the object as it is and ends as that
    call ended, whatever has become of the file in between. *)
Theorem X14_the_tree_is_loaded_once (io_error : Type)
  (w1 w2 : world io_error) (self self1 : BookingHTMLParser)
  (out : outcome io_error (list dict)) :
  extract_room_data_method io_error w1 self = (self1, out) ->
  (forall e, out <> LoadFailed e) ->
  soup self1 <> None /\
  html_path self1 = html_path self /\
  extract_room_data_method io_error w2 self1 = (self1, out).
Proof.
  unfold extract_room_data_method, load_html, run_extraction.
  destruct (soup self) as [tree|] eqn:Es.
  - intros [= <- <-] _. rewrite Es. repeat split. congruence.
  - destruct (w1 (html_path self)) as [e|tree].
    + intros [= <- <-] H. now specialize (H e).
    + intros [= <- <-] _. simpl. repeat split. discriminate.
Qed.

Lemma X14_witness :
  extract_room_data_method unit one_file_world (init "booking.html")
  = ({| html_path := "booking.html"; soup := Some doc_full |},
     Done [full_record]) /\
  extract_room_data_method unit no_file_world
    {| html_path := "booking.html"; soup := Some doc_full |}
  = ({| html_path := "booking.html"; soup := Some doc_full |},
     Done [full_record]).
Proof.
  split; [reflexivity|].
  apply (X14_the_tree_is_loaded_once unit one_file_world no_file_world
           (init "booking.html")); [reflexivity|discriminate].
Defined.

(** X15: a call that fails to load the file reports the failure, leaves
    the object without a tree, and a later call starts over: it behaves
    as the first call on a fresh object would. An exception of the
    extraction itself, in contrast, leaves the parsed tree in the
    object. *)
Theorem X15_a_failed_load_is_retried (io_error : Type)
  (w1 : world io_error) (path : string) (e : io_error) :
  w1 path = inl e ->
  extract_room_data_method io_error w1 (init path) = (init path, LoadFailed e) /\
  (forall w2,
      extract_room_data_method io_error w2
        (fst (extract_room_data_method io_error w1 (init path)))
      = extract_room_data_method io_error w2 (init path)) /\
  (forall w2 tree x,
      w2 path = inr tree ->
      extract_room_data tree = Raise x ->
      extract_room_data_method io_error w2 (init path)
      = ({| html_path := path; soup := Some tree |}, Raised x)).
Proof.
  intros Hw.
  assert (H : extract_room_data_method io_error w1 (init path)
              = (init path, LoadFailed e)).
  { unfold extract_room_data_method, load_html. simpl. now rewrite Hw. }
  split; [exact H|]. split.
  - intros w2. now rewrite H.
  - intros w2 tree x Hw2 Hx.
    unfold extract_room_data_method, load_html, run_extraction. simpl.
    rewrite Hw2. simpl. now rewrite Hx.
Qed.

Lemma X15_witness :
  no_file_world "booking.html" = inl tt /\
  extract_room_data_method unit no_file_world (init "booking.html")
  = (init "booking.html", LoadFailed tt) /\
  extract_room_data_method unit one_file_world
    (fst (extract_room_data_method unit no_file_world (init "booking.html")))
  = ({| html_path := "booking.html"; soup := Some doc_full |},
     Done [full_record]).
Proof.
  split; [reflexivity|].
  destruct (X15_a_failed_load_is_retried unit no_file_world "booking.html" tt
              eq_refl) as (H1 & H2 & _).
  split; [exact H1|]. rewrite H2. reflexivity.
Defined.

(** *** The table *)

(** What a call that is done leaves behind. *)
Lemma method_done (io_error : Type) (w : world io_error)
  (self self' : BookingHTMLParser) (rooms : list dict) :
  extract_room_data_method io_error w self = (self', Done rooms) ->
  exists tree, soup self' = Some tree /\ extract_room_data tree = Return rooms.
Proof.
  unfold extract_room_data_method, load_html, run_extraction.
  destruct (soup self) as [tree|] eqn:Es.
  - intros [= <- H]. exists tree. split; [exact Es|].
    now destruct (extract_room_data tree); [injection H as ->|].
  - destruct (w (html_path self)) as [e|tree]; [discriminate|].
    simpl. intros [= <- H]. exists tree. split; [reflexivity|].
    now destruct (extract_room_data tree); [injection H as ->|].
Qed.

Lemma table_done (io_error : Type) (w : world io_error)
  (self self' : BookingHTMLParser) (df : DataFrame) :
  get_availability_table w self = (self', Done df) ->
  exists tree rooms,
    soup self' = Some tree /\ extract_room_data tree = Return rooms /\
    df = DataFrame_of rooms.
Proof.
  unfold get_availability_table.
  destruct (extract_room_data_method io_error w self) as [self1 out] eqn:E.
  destruct out as [rooms|e|x]; intros [= <- <-].
  destruct (method_done io_error w self self1 rooms E) as (tree & Hs & Hr).
  now exists tree, rooms.
Qed.

(** The columns of the table of a completed pass. *)
Lemma columns_of_rooms (rooms : list dict) :
  Forall (fun r => keys r = FIELDS \/ keys r = FIELDS_WITHOUT_PRICE_PER_UNIT) rooms ->
  (rooms = [] -> columns (DataFrame_of rooms) = []) /\
  (forall r rest,
      rooms = r :: rest -> lookup "price_per_unit" r <> None ->
      columns (DataFrame_of rooms) = FIELDS) /\
  (forall r rest,
      rooms = r :: rest -> lookup "price_per_unit" r = None ->
      (exists r', In r' rest /\ lookup "price_per_unit" r' <> None) ->
      columns (DataFrame_of rooms)
      = FIELDS_WITHOUT_PRICE_PER_UNIT ++ ["price_per_unit"]) /\
  (forall r rest,
      rooms = r :: rest ->
      (forall r', In r' rooms -> lookup "price_per_unit" r' = None) ->
      columns (DataFrame_of rooms) = FIELDS_WITHOUT_PRICE_PER_UNIT).
Proof.
  intros Hall. split; [now intros ->|].
  split; [|split]; intros r rest -> Hr;
    inversion Hall as [|? ? Hkeys Hrest]; subst;
    destruct (record_keys_cases r Hkeys) as [Hfull Hwithout];
    cbn [DataFrame_of columns fold_left].
  - rewrite (Hfull Hr). now apply columns_fold_full; [|left].
  - intros Hex. rewrite (Hwithout Hr).
    now apply (columns_fold_without rest Hrest).
  - rewrite (Hwithout (Hr r (or_introl eq_refl))).
    apply (columns_fold_without rest Hrest).
    intros r' Hin. apply Hr. now right.
Qed.

Lemma columns_within_fields (rooms : list dict) :
  Forall (fun r => keys r = FIELDS \/ keys r = FIELDS_WITHOUT_PRICE_PER_UNIT) rooms ->
  forall c, In c (columns (DataFrame_of rooms)) -> In c FIELDS.
Proof.
  intros Hall c.
  destruct (columns_of_rooms rooms Hall) as (H0 & H1 & H2 & H3).
  destruct rooms as [|r rest]; [now rewrite H0|].
  destruct (lookup "price_per_unit" r) as [v|] eqn:Er.
  - rewrite (H1 r rest eq_refl) by congruence. tauto.
  - assert (Hdec : (exists r', In r' rest /\ lookup "price_per_unit" r' <> None)
                   \/ (forall r', In r' rest -> lookup "price_per_unit" r' = None)).
    { clear. induction rest as [|r0 rest [IH|IH]].
      - right. intros r' [].
      - left. destruct IH as (r' & Hin & Hr'). exists r'. split; [now right|exact Hr'].
      - destruct (lookup "price_per_unit" r0) as [v|] eqn:E0.
        + left. exists r0. split; [now left|congruence].
        + right. intros r' [<-|Hin]; [exact E0|now apply IH]. }
    destruct Hdec as [Hex|Hnone].
    + rewrite (H2 r rest eq_refl Er Hex). simpl. tauto.
    + rewrite (H3 r rest eq_refl).
      * simpl. tauto.
      * intros r' [<-|Hin]; [exact Er|now apply Hnone].
Qed.

(** X16: the table of a completed pass has one row per row segment, and
    its columns are the field names in the order in which the records
    first show them: none without records; the nine fields in their
    order when the first record has a price per unit; the eight other
    fields followed by [price_per_unit] when the first record has none
    and a later one has; the eight other fields when no record has
    one. *)
Theorem X16_shape_of_the_table (io_error : Type) (w : world io_error)
  (self self' : BookingHTMLParser) (df : DataFrame) :
  get_availability_table w self = (self', Done df) ->
  exists tree rooms,
    soup self' = Some tree /\
    extract_room_data tree = Return rooms /\
    len df = length (room_rows tree) /\
    (rooms = [] -> columns df = []) /\
    (forall r rest,
        rooms = r :: rest -> lookup "price_per_unit" r <> None ->
        columns df = FIELDS) /\
    (forall r rest,
        rooms = r :: rest -> lookup "price_per_unit" r = None ->
        (exists r', In r' rest /\ lookup "price_per_unit" r' <> None) ->
        columns df = FIELDS_WITHOUT_PRICE_PER_UNIT ++ ["price_per_unit"]) /\
    (forall r rest,
        rooms = r :: rest ->
        (forall r', In r' rooms -> lookup "price_per_unit" r' = None) ->
        columns df = FIELDS_WITHOUT_PRICE_PER_UNIT).
Proof.
  intros H. destruct (table_done io_error w self self' df H)
    as (tree & rooms & Hs & Hr & ->).
  exists tree, rooms. split; [exact Hs|]. split; [exact Hr|]. split.
  - unfold len, DataFrame_of. cbn [rows]. rewrite length_map.
    now apply extract_room_data_length.
  - apply columns_of_rooms. now apply (pass_record_keys tree).
Qed.

Lemma X16_witness :
  get_availability_table no_file_world mixed_parser
  = (mixed_parser, Done mixed_table) /\
  len mixed_table = 2 /\
  columns mixed_table = FIELDS_WITHOUT_PRICE_PER_UNIT ++ ["price_per_unit"].
Proof.
  split; [reflexivity|].
  destruct (X16_shape_of_the_table unit no_file_world mixed_parser mixed_parser
              mixed_table eq_refl)
    as (tree & rooms & Hs & Hr & Hlen & _ & _ & Hcols & _).
  injection Hs as <-. vm_compute in Hr. injection Hr as <-.
  split; [exact Hlen|].
  eapply Hcols; [reflexivity|reflexivity|].
  eexists. split; [left; reflexivity|discriminate].
Defined.

(** X17: in the table of a completed pass every row has one cell per
    column, every column is one of the nine fields, and a cell is missing
    in the column [price_per_unit] only. *)
Theorem X17_missing_cells (io_error : Type) (w : world io_error)
  (self self' : BookingHTMLParser) (df : DataFrame) :
  get_availability_table w self = (self', Done df) ->
  (forall c, In c (columns df) -> In c FIELDS) /\
  forall i cells,
    nth_error (rows df) i = Some cells ->
    length cells = length (columns df) /\
    forall j c,
      nth_error (columns df) j = Some c ->
      nth_error cells j = Some None ->
      c = "price_per_unit".
Proof.
  intros H. destruct (table_done io_error w self self' df H)
    as (tree & rooms & _ & Hr & ->).
  pose proof (pass_record_keys tree rooms Hr) as Hall.
  split; [now apply columns_within_fields|].
  intros i cells Hcells. unfold DataFrame_of in Hcells. cbn [rows] in Hcells.
  rewrite nth_error_map in Hcells.
  destruct (nth_error rooms i) as [r|] eqn:Hri; [|discriminate].
  injection Hcells as <-.
  split; [apply length_map|].
  intros j c Hc Hnone.
  assert (Hc' := Hc). unfold DataFrame_of in Hc'. cbn [columns] in Hc'.
  rewrite nth_error_map, Hc' in Hnone. simpl in Hnone. injection Hnone as Hnone.
  apply lookup_none_keys in Hnone.
  pose proof (columns_within_fields rooms Hall c (nth_error_In _ _ Hc)) as Hin.
  apply nth_error_In in Hri.
  rewrite Forall_forall in Hall. specialize (Hall r Hri).
  destruct Hall as [Hk|Hk]; rewrite Hk in Hnone.
  - contradiction.
  - simpl in Hin, Hnone.
    repeat (destruct Hin as [<-|Hin]; [try reflexivity; exfalso; tauto|]).
    contradiction.
Qed.

Lemma X17_witness :
  get_availability_table no_file_world mixed_parser
  = (mixed_parser, Done mixed_table) /\
  nth_error (rows mixed_table) 0
  = Some [Some (VStr "Deluxe Suite"); Some (VStr "N/A"); Some (VStr "N/A");
          Some (VStr "N/A"); Some (VStr "N/A"); Some (VInt 1);
          Some (VStr "No"); Some (VStr "Not specified"); None] /\
  nth 8 (columns mixed_table) EmptyString = "price_per_unit".
Proof.
  split; [reflexivity|]. split; [reflexivity|].
  destruct (X17_missing_cells unit no_file_world mixed_parser mixed_parser
              mixed_table eq_refl) as [_ H].
  destruct (H 0 _ eq_refl) as [_ Hcell].
  apply (Hcell 8); reflexivity.
Defined.

(** *** Text fields are trimmed *)

(** Stripping on the left never lengthens a string. *)
Lemma lstrip_length (s : string) : Str.length (PyStr.lstrip s) <= Str.length s.
Proof.
  induction s as [|a s IH]; simpl; [lia|].
  destruct (PyStr.is_space a); simpl; lia.
Qed.

Lemma lstrip_fixed_head (a : char) (s : string) :
  PyStr.lstrip (String a s) = String a s -> PyStr.is_space a = false.
Proof.
  simpl. destruct (PyStr.is_space a); [|reflexivity]. intros H.
  pose proof (lstrip_length s) as Hlen. rewrite H in Hlen. simpl in Hlen. lia.
Qed.

Lemma lstrip_app_fixed (a x : string) :
  a <> EmptyString -> PyStr.lstrip a = a ->
  PyStr.lstrip (a ++ x)%string = (a ++ x)%string.
Proof.
  destruct a as [|c a]; [congruence|]. intros _ H.
  apply lstrip_fixed_head in H. simpl. now rewrite H.
Qed.

Lemma rstrip_app_fixed (x b : string) :
  b <> EmptyString -> PyStr.rstrip b = b ->
  PyStr.rstrip (x ++ b)%string = (x ++ b)%string.
Proof.
  intros Hne Hb. induction x as [|c x IH]; [exact Hb|].
  simpl. rewrite IH. destruct (x ++ b)%string eqn:E; [|reflexivity].
  destruct x; [simpl in E; congruence|discriminate].
Qed.

Lemma append_assoc (a b c : string) :
  ((a ++ b) ++ c)%string = (a ++ (b ++ c))%string.
Proof. induction a as [|x a IH]; simpl; [reflexivity|now rewrite IH]. Qed.

Lemma strip_sides (s : string) :
  PyStr.lstrip (PyStr.strip s) = PyStr.strip s /\
  PyStr.rstrip (PyStr.strip s) = PyStr.strip s.
Proof.
  unfold PyStr.strip. split; [apply lstrip_idempotent|].
  apply rstrip_lstrip_fixed, rstrip_idempotent.
Qed.

(** Joined pieces that are each stripped and not empty make a string
    without whitespace at either end, whatever the separator. *)
Lemma join_sides (sep : string) (pieces : list string) :
  Forall (fun p => p <> EmptyString /\ PyStr.lstrip p = p /\ PyStr.rstrip p = p)
         pieces ->
  PyStr.lstrip (PyStr.join sep pieces) = PyStr.join sep pieces /\
  PyStr.rstrip (PyStr.join sep pieces) = PyStr.join sep pieces /\
  (pieces <> [] -> PyStr.join sep pieces <> EmptyString).
Proof.
  unfold PyStr.join.
  induction 1 as [|p pieces (Hne & Hl & Hr) Hall (IHl & IHr & IHne)];
    [now repeat split|].
  destruct pieces as [|q pieces]; [now repeat split|].
  change (Str.concat sep (p :: q :: pieces))
    with (p ++ sep ++ Str.concat sep (q :: pieces))%string.
  split; [now apply lstrip_app_fixed|]. split.
  - rewrite <- !append_assoc. apply rstrip_app_fixed; [|exact IHr].
    apply IHne. discriminate.
  - intros _. destruct p; [congruence|discriminate].
Qed.

(** [get_text] with [strip=True] gives a trimmed string. *)
Lemma get_text_trimmed (sep : string) (e : element) :
  PyStr.strip (get_text sep e) = get_text sep e.
Proof.
  unfold get_text.
  destruct (join_sides sep (stripped_strings (node_of e))) as (Hl & Hr & _).
  - unfold stripped_strings. apply Forall_forall. intros p Hin.
    apply filter_In in Hin as [Hin Hne]. apply in_map_iff in Hin as (s & <- & _).
    split; [|apply strip_sides].
    intros E. rewrite E in Hne. discriminate.
  - unfold PyStr.strip. now rewrite Hr, Hl.
Qed.

Lemma text_or_na_trimmed (sep : string) (elem : option element) :
  PyStr.strip (text_or_na sep elem) = text_or_na sep elem.
Proof. destruct elem; [apply get_text_trimmed|reflexivity]. Qed.

Lemma most_recent_label_trimmed (rows : list element) (t : string) :
  most_recent_label rows = Some t -> PyStr.strip t = t.
Proof.
  unfold most_recent_label. intros H. apply find_some in H as [Hin _].
  apply in_rev, in_map_iff in Hin as (row & <- & _).
  apply text_or_na_trimmed.
Qed.

(** X18: in a completed pass every text field of every record, the
    price per unit excepted, is free of leading and trailing whitespace:
    the room type, the description, the price, the cancellation policy,
    the maximum occupancy, the breakfast flag and the meals text. *)
Theorem X18_text_fields_are_trimmed (soup : node) (rooms : list dict)
  (r : dict) (k s : string) :
  extract_room_data soup = Return rooms ->
  In r rooms ->
  k <> "price_per_unit" ->
  lookup k r = Some (VStr s) ->
  PyStr.strip s = s.
Proof.
  intros H Hin Hk Hs.
  destruct (pass_records soup rooms H) as [_ Hnth].
  apply In_nth_error in Hin as [i Hi].
  destruct (nth_error (room_rows soup) i) as [row|] eqn:Erow.
  2:{ apply nth_error_None in Erow.
      assert (i < length rooms) by (apply nth_error_Some; congruence).
      apply extract_room_data_length in H. lia. }
  destruct (Hnth i row r Erow Hi) as (t & Ht & ->).
  apply most_recent_label_trimmed in Ht.
  revert Hs. unfold record_of.
  destruct (price_per_unit_entry row); cbn [app lookup];
    repeat match goal with
           | |- context [Str.eqb ?a k] =>
               destruct (StrFacts.eqb_spec a k);
               [first [ exfalso; congruence
                      | intros [= <-];
                        first [ exact Ht
                              | apply text_or_na_trimmed
                              | apply strip_idempotent
                              | unfold reconcile; now destruct (_ || _)
                              | idtac ] ]
               |]
           end; try discriminate.
  all: unfold meals_field;
    repeat match goal with
           | |- context [match ?x with _ => _ end] => destruct x
           end; first [apply get_text_trimmed|reflexivity].
Qed.

Lemma X18_witness :
  extract_room_data doc_full = Return [full_record] /\
  PyStr.strip "Deluxe Suite  with view" = "Deluxe Suite  with view" /\
  exists r,
    extract_room_data doc_spaced_price = Return [r] /\
    lookup "price_per_unit" r = Some (VStr " 100 ").
Proof.
  split; [reflexivity|]. split.
  - apply (X18_text_fields_are_trimmed doc_full [full_record] full_record
             "description"); [reflexivity|simpl; tauto|discriminate|reflexivity].
  - eexists. split; [vm_compute; reflexivity|reflexivity].
Defined.
